(** * sudachi-api.js: the Sudachi lookup client

    A shallow embedding of [ext/js/language/sudachi-api.js]: the class
    [SudachiApiClient], its constructor, the public method [getJishokei]
    and the helper [_findTokenAtCursor].

    Modelling decisions.
    - Values are the JavaScript values the program can meet: what
      [JSON.parse] yields, plus [undefined] for a property that is not
      there.  The body of a response is such a value, whatever its
      shape: the JSDoc cast on [data] checks nothing at run time.
    - Numbers are integers or NaN.  The wire contract carries integer
      offsets, and on integers of magnitude at most 2^52, far beyond
      the size of a text offset, the subtraction of doubles is exact;
      fractions and infinities are not modelled.
    - An object after [JSON.parse] is its list of own properties, keys
      distinct.
    - The method is [async]: a [Throw] completion is a rejected promise,
      a [Return] completion a fulfilled one.  Calls are modelled one
      after the other; what the one network request of a call yields
      (a rejected [fetch], an [AbortError] among them, or a response and
      its body) is an input of the call.  [getJishokei_timed] adds the
      clock: when the response and its body are there, and so whether
      the timer or [fetch] is first and whether the promise settles.
    - The conversion of a string and of an array to a number belongs to
      the runtime and is taken as a parameter. *)

From Stdlib Require Import ZArith List String Bool Lia.
Import ListNotations.
Local Open Scope string_scope.
Local Open Scope Z_scope.
Local Open Scope list_scope.

Set Implicit Arguments.
Local Set Warnings "-register-all".

(** ** Values *)

Inductive number : Type :=
| NaN
| Int (z : Z).

Inductive value : Type :=
| VUndefined
| VNull
| VBool (b : bool)
| VNum (n : number)
| VStr (s : string)
| VArr (elems : list value)
| VObj (props : list (string * value)).

(** Thrown values: what [error instanceof Error] and [error.name] see. *)
Record exn : Type := mkExn {
  exn_is_Error : bool;
  exn_name : string
}.

Definition TypeError : exn := mkExn true "TypeError".
Definition SyntaxError : exn := mkExn true "SyntaxError".
Definition AbortError : exn := mkExn true "AbortError".

Inductive completion (A : Type) : Type :=
| Return (a : A)
| Throw (e : exn).
Arguments Return {A} a.
Arguments Throw {A} e.

(** ** Data of the program *)

(** [{surface, jishokei, start, end}] as the JSDoc of the file types it. *)
Record Token : Type := mkToken {
  t_surface : string;
  t_jishokei : string;
  t_start : Z;
  t_end : Z
}.

(** The object literal [{jishokei, length, offset}] the method returns.
    [jishokei] and [offset] are copied from the token, [length] is the
    result of a subtraction, hence a number. *)
Record result : Type := mkResult {
  r_jishokei : value;
  r_length : number;
  r_offset : value
}.

(** The fields the constructor sets. *)
Record client : Type := mkClient {
  _apiUrl : string;
  _timeout : Z;
  _cachedSentence : option string;
  _cachedTokens : value
}.

(** [constructor()] *)
Definition constructor : client :=
  mkClient "http://127.0.0.1:8000" 5000 None VNull.

(** ** The environment of one call *)

(** [await response.json()]: rejects, or yields the parsed body. *)
Inductive body_outcome : Type :=
| JsonRejects (e : exn)
| JsonResolves (data : value).

Record response : Type := mkResponse {
  status : Z;
  json : body_outcome
}.

(** [response.ok]: the status is in the range 200-299. *)
Definition ok (r : response) : bool :=
  (200 <=? status r) && (status r <=? 299).

(** [await fetch(...)]: rejects (with an [AbortError] when the timer
    fired and aborted the request, with another error when the
    transport failed), or yields a response. *)
Inductive fetch_outcome : Type :=
| FetchRejects (e : exn)
| FetchResolves (r : response).

(** What a call does to the outside, in order. *)
Inductive event : Type :=
| EvSetTimeout (ms : Z)
| EvFetch (url : string) (sentence : string) (cursor_index : number)
| EvClearTimeout
| EvLogWarnStatus (st : Z)
| EvLogErrorTimedOut
| EvLogError (e : exn).

Definition is_fetch (ev : event) : bool :=
  match ev with
  | EvFetch _ _ _ => true
  | _ => false
  end.

(** ** The typed view of a value *)

Definition token_value (t : Token) : value :=
  VObj [("surface", VStr (t_surface t));
        ("jishokei", VStr (t_jishokei t));
        ("start", VNum (Int (t_start t)));
        ("end", VNum (Int (t_end t)))].

Definition tokens_value (ts : list Token) : value :=
  VArr (map token_value ts).

Definition current_value (c : option Token) : value :=
  match c with
  | Some t => token_value t
  | None => VNull
  end.

(** The body of a response that follows the wire contract. *)
Definition response_data (ts : list Token) (c : option Token) : value :=
  VObj [("tokens", tokens_value ts); ("current", current_value c)].

(** The result built from a token. *)
Definition token_result (t : Token) : result :=
  mkResult (VStr (t_jishokei t)) (Int (t_end t - t_start t))
           (VNum (Int (t_start t))).

(** ** Operators of the language *)

Fixpoint lookup (k : string) (props : list (string * value)) : option value :=
  match props with
  | [] => None
  | (k', v) :: rest => if String.eqb k k' then Some v else lookup k rest
  end.

Definition has_key (k : string) (props : list (string * value)) : bool :=
  match lookup k props with
  | Some _ => true
  | None => false
  end.

(** [v.k] for the five names the program reads ([tokens], [current],
    [jishokei], [start], [end]); none of them is on a built-in
    prototype, so on a primitive or an array the access is [undefined],
    and on [null] or [undefined] it throws. *)
Definition get (v : value) (k : string) : completion value :=
  match v with
  | VUndefined | VNull => Throw TypeError
  | VObj props =>
      match lookup k props with
      | Some x => Return x
      | None => Return VUndefined
      end
  | _ => Return VUndefined
  end.

(** [a === null] *)
Definition is_null (v : value) : bool :=
  match v with
  | VNull => true
  | _ => false
  end.

(** [a <= b] and [a < b] on numbers: false as soon as one side is NaN. *)
Definition num_le (a b : number) : bool :=
  match a, b with
  | Int x, Int y => x <=? y
  | _, _ => false
  end.

Definition num_lt (a b : number) : bool :=
  match a, b with
  | Int x, Int y => x <? y
  | _, _ => false
  end.

(** [a - b] on numbers. *)
Definition num_sub (a b : number) : number :=
  match a, b with
  | Int x, Int y => Int (x - y)
  | _, _ => NaN
  end.

(** The values a [for ... of] loop visits: the elements of an array, the
    characters of a string; anything else is not iterable. *)
Fixpoint chars (s : string) : list value :=
  match s with
  | EmptyString => []
  | String c rest => VStr (String c EmptyString) :: chars rest
  end.

Definition iterate (v : value) : completion (list value) :=
  match v with
  | VArr elems => Return elems
  | VStr s => Return (chars s)
  | _ => Throw TypeError
  end.

(** ** Completions and the monad of a method body *)

Definition cbind {A B : Type} (c : completion A) (f : A -> completion B)
  : completion B :=
  match c with
  | Return a => f a
  | Throw e => Throw e
  end.

(** A method body reads and writes the fields of [this], may throw, and
    leaves a trace of events.  A write made before a throw stays made. *)
Definition M (A : Type) : Type := client -> completion A * client * list event.

Definition ret {A : Type} (a : A) : M A :=
  fun this => (Return a, this, []).

Definition bind {A B : Type} (m : M A) (f : A -> M B) : M B :=
  fun this =>
    match m this with
    | (Return a, this', tr) =>
        let '(r, this'', tr') := f a this' in (r, this'', tr ++ tr')
    | (Throw e, this', tr) => (Throw e, this', tr)
    end.

Definition lift {A : Type} (c : completion A) : M A :=
  fun this => (c, this, []).

Definition try_catch {A : Type} (body : M A) (handler : exn -> M A) : M A :=
  fun this =>
    match body this with
    | (Return a, this', tr) => (Return a, this', tr)
    | (Throw e, this', tr) =>
        let '(r, this'', tr') := handler e this' in (r, this'', tr ++ tr')
    end.

(** A call [this.m(...)] of a method that only reads the fields. *)
Definition this_call {A : Type} (m : client -> completion A) : M A :=
  fun this => (m this, this, []).

Definition emit (ev : event) : M unit :=
  fun this => (Return tt, this, [ev]).

Definition read {A : Type} (field : client -> A) : M A :=
  fun this => (Return (field this), this, []).

Definition set_cachedSentence (s : string) : M unit :=
  fun this =>
    (Return tt,
     mkClient (_apiUrl this) (_timeout this) (Some s) (_cachedTokens this),
     []).

Definition set_cachedTokens (v : value) : M unit :=
  fun this =>
    (Return tt,
     mkClient (_apiUrl this) (_timeout this) (_cachedSentence this) v,
     []).

Declare Scope js_scope.
Delimit Scope js_scope with js.
Notation "x <- m ;; k" := (bind m (fun x => k))
  (at level 61, m at next level, right associativity) : js_scope.
Notation "m ;; k" := (bind m (fun _ => k))
  (at level 61, right associativity) : js_scope.
Notation "x <~ c ;; k" := (cbind c (fun x => k))
  (at level 61, c at next level, right associativity) : js_scope.

(** [this._cachedSentence === sentence] *)
Definition sentence_is (cached : option string) (sentence : string) : bool :=
  match cached with
  | Some s => String.eqb s sentence
  | None => false
  end.

(** [await fetch(...)] and [await response.json()] *)
Definition await_fetch (net : fetch_outcome) : M response :=
  match net with
  | FetchRejects e => lift (Throw e)
  | FetchResolves r => ret r
  end.

Definition await_json (r : response) : M value :=
  match json r with
  | JsonRejects e => lift (Throw e)
  | JsonResolves data => ret data
  end.

(** [error instanceof Error && error.name === 'AbortError'] *)
Definition is_abort (error : exn) : bool :=
  exn_is_Error error && String.eqb (exn_name error) "AbortError".

Section Program.

Local Open Scope js_scope.

(** The runtime's conversion of a string and of an array to a number. *)
Variable StringToNumber : string -> number.
Variable ArrayToNumber : list value -> completion number.

(** [ToNumber]: what [<=], [<] and [-] apply to an operand.  An object
    from [JSON.parse] converts through [Object.prototype.toString] to
    NaN, unless an own [toString] property, which is never callable,
    hides it: then the conversion throws. *)
Definition ToNumber (v : value) : completion number :=
  match v with
  | VUndefined => Return NaN
  | VNull => Return (Int 0)
  | VBool b => Return (Int (if b then 1 else 0))
  | VNum n => Return n
  | VStr s => Return (StringToNumber s)
  | VArr elems => ArrayToNumber elems
  | VObj props => if has_key "toString" props then Throw TypeError else Return NaN
  end.

(** [token.start <= cursorIndex && cursorIndex < token.end] *)
Definition covers (token : value) (cursorIndex : number) : completion bool :=
  s <~ get token "start" ;;
  ns <~ ToNumber s ;;
  if num_le ns cursorIndex then
    e <~ get token "end" ;;
    ne <~ ToNumber e ;;
    Return (num_lt cursorIndex ne)
  else Return false.

(** The loop [for (const token of ...)]: the first token that covers the
    cursor leaves the loop; [null] after the last one. *)
Fixpoint scan (tokens : list value) (cursorIndex : number) : completion value :=
  match tokens with
  | [] => Return VNull
  | token :: rest =>
      b <~ covers token cursorIndex ;;
      if b then Return token else scan rest cursorIndex
  end.

(** [_findTokenAtCursor(cursorIndex)] *)
Definition _findTokenAtCursor (this : client) (cursorIndex : number)
  : completion value :=
  if is_null (_cachedTokens this) then Return VNull
  else
    tokens <~ iterate (_cachedTokens this) ;;
    scan tokens cursorIndex.

(** [{jishokei: T.jishokei, length: T.end - T.start, offset: T.start}]
    where [T] is the expression [token] or [data.current], evaluated at
    each of its four occurrences. *)
Definition make_result (T : completion value) : completion result :=
  t1 <~ T ;; j <~ get t1 "jishokei" ;;
  t2 <~ T ;; e <~ get t2 "end" ;;
  t3 <~ T ;; s <~ get t3 "start" ;;
  ne <~ ToNumber e ;;
  ns <~ ToNumber s ;;
  t4 <~ T ;; o <~ get t4 "start" ;;
  Return (mkResult j (num_sub ne ns) o).

(** [async getJishokei(sentence, cursorIndex)]; [net] is what the
    request yields if the call issues it. *)
Definition getJishokei (sentence : string) (cursorIndex : number)
    (net : fetch_outcome) : M (option result) :=
  cachedSentence <- read _cachedSentence ;;
  cachedTokens <- read _cachedTokens ;;
  if sentence_is cachedSentence sentence && negb (is_null cachedTokens) then
    token <- this_call (fun this => _findTokenAtCursor this cursorIndex) ;;
    if negb (is_null token) then
      r <- lift (make_result (Return token)) ;;
      ret (Some r)
    else ret None
  else
    try_catch
      (timeout <- read _timeout ;;
       emit (EvSetTimeout timeout) ;;
       apiUrl <- read _apiUrl ;;
       emit (EvFetch apiUrl sentence cursorIndex) ;;
       response <- await_fetch net ;;
       emit EvClearTimeout ;;
       if negb (ok response) then
         emit (EvLogWarnStatus (status response)) ;;
         ret None
       else
         data <- await_json response ;;
         set_cachedSentence sentence ;;
         tokens <- lift (get data "tokens") ;;
         set_cachedTokens tokens ;;
         current <- lift (get data "current") ;;
         if is_null current then ret None
         else
           r <- lift (make_result (get data "current")) ;;
           ret (Some r))
      (fun error =>
         (if is_abort error then emit EvLogErrorTimedOut
          else emit (EvLogError error)) ;;
         ret None).

(** Lines 86-94 on their own: what the call resolves to once the cache
    is written, or what it throws into the [catch]. *)
Definition after_cache_write (data : value) : completion (option result) :=
  current <~ get data "current" ;;
  if is_null current then Return None
  else
    r <~ make_result (get data "current") ;;
    Return (Some r).

(** Lines 44-52 on their own. *)
Definition from_cache (this : client) (cursorIndex : number)
  : completion (option result) :=
  token <~ _findTokenAtCursor this cursorIndex ;;
  if negb (is_null token) then
    r <~ make_result (Return token) ;;
    Return (Some r)
  else Return None.

(** The alternative the design note of the specification allows on the
    network path: after the cache is replaced, do not read
    [data.current]; scan the tokens just cached by the containment rule
    of the cache path.  The rest is [getJishokei]. *)
Definition getJishokei_rescan (sentence : string) (cursorIndex : number)
    (net : fetch_outcome) : M (option result) :=
  cachedSentence <- read _cachedSentence ;;
  cachedTokens <- read _cachedTokens ;;
  if sentence_is cachedSentence sentence && negb (is_null cachedTokens) then
    token <- this_call (fun this => _findTokenAtCursor this cursorIndex) ;;
    if negb (is_null token) then
      r <- lift (make_result (Return token)) ;;
      ret (Some r)
    else ret None
  else
    try_catch
      (timeout <- read _timeout ;;
       emit (EvSetTimeout timeout) ;;
       apiUrl <- read _apiUrl ;;
       emit (EvFetch apiUrl sentence cursorIndex) ;;
       response <- await_fetch net ;;
       emit EvClearTimeout ;;
       if negb (ok response) then
         emit (EvLogWarnStatus (status response)) ;;
         ret None
       else
         data <- await_json response ;;
         set_cachedSentence sentence ;;
         tokens <- lift (get data "tokens") ;;
         set_cachedTokens tokens ;;
         token <- this_call (fun this => _findTokenAtCursor this cursorIndex) ;;
         if negb (is_null token) then
           r <- lift (make_result (Return token)) ;;
           ret (Some r)
         else ret None)
      (fun error =>
         (if is_abort error then emit EvLogErrorTimedOut
          else emit (EvLogError error)) ;;
         ret None).

(** ** Calls one after the other *)

Record call : Type := mkCall {
  c_sentence : string;
  c_cursorIndex : number;
  c_net : fetch_outcome
}.

(** What the caller sees of a call: the settled promise and the events. *)
Definition outcome : Type := (completion (option result) * list event)%type.

(** The calls are made in order on the same client; a rejected promise
    does not stop the caller from calling again. *)
Fixpoint run (calls : list call) (this : client) : list outcome * client :=
  match calls with
  | [] => ([], this)
  | c :: rest =>
      let '(r, this', tr) :=
        getJishokei (c_sentence c) (c_cursorIndex c) (c_net c) this in
      let '(outs, this'') := run rest this' in
      ((r, tr) :: outs, this'')
  end.

End Program.

(** ** Notions the properties are stated with *)

(** The line the [catch] logs for [error]. *)
Definition catch_log (error : exn) : event :=
  if is_abort error then EvLogErrorTimedOut else EvLogError error.

(** The events of a request up to the settled [fetch]. *)
Definition request_events (this : client) (sentence : string)
    (cursorIndex : number) : list event :=
  [EvSetTimeout (_timeout this); EvFetch (_apiUrl this) sentence cursorIndex].

(** [this] after [this._cachedSentence = sentence] and
    [this._cachedTokens = tokens]. *)
Definition with_sentence (this : client) (sentence : string) : client :=
  mkClient (_apiUrl this) (_timeout this) (Some sentence) (_cachedTokens this).

Definition with_cache (this : client) (sentence : string) (tokens : value)
  : client :=
  mkClient (_apiUrl this) (_timeout this) (Some sentence) tokens.

(** [t.start <= cursorIndex < t.end] on a token of the documented shape. *)
Definition covers_tok (cursorIndex : number) (t : Token) : bool :=
  num_le (Int (t_start t)) cursorIndex && num_lt cursorIndex (Int (t_end t)).

(** The rule of the specification for the service's [current]: the first
    element of [tokens] whose span covers the cursor, none when no
    element does. *)
Definition first_covering (tokens : list Token) (cursorIndex : number)
  : option Token :=
  find (covers_tok cursorIndex) tokens.

(** The call goes to the network: the test of line 43 fails. *)
Definition cache_miss (this : client) (sentence : string) : bool :=
  negb (sentence_is (_cachedSentence this) sentence
        && negb (is_null (_cachedTokens this))).

(** Both cache fields [null], or both not. *)
Definition cache_consistent (this : client) : bool :=
  match _cachedSentence this with
  | None => is_null (_cachedTokens this)
  | Some _ => negb (is_null (_cachedTokens this))
  end.

(** Both cache fields hold something. *)
Definition cache_populated (this : client) : bool :=
  match _cachedSentence this with
  | None => false
  | Some _ => negb (is_null (_cachedTokens this))
  end.

(** A response body that follows the wire contract, with tokens in [P]. *)
Definition follows_contract (P : Token -> Prop) (data : value) : Prop :=
  exists (toks : list Token) (cur : option Token),
    data = response_data toks cur /\
    Forall P toks /\
    (forall t, cur = Some t -> P t).

(** The request, if made, fails before a body is parsed, or its body
    follows the wire contract with tokens in [P]. *)
Definition well_behaved (P : Token -> Prop) (net : fetch_outcome) : Prop :=
  match net with
  | FetchRejects _ => True
  | FetchResolves r =>
      ok r = true ->
      match json r with
      | JsonRejects _ => True
      | JsonResolves data => follows_contract P data
      end
  end.

(** The request, if made, fails before a body is parsed, or its body
    carries an array in [tokens]. *)
Definition tokens_is_array (net : fetch_outcome) : Prop :=
  match net with
  | FetchRejects _ => True
  | FetchResolves r =>
      ok r = true ->
      match json r with
      | JsonRejects _ => True
      | JsonResolves data => exists elems, get data "tokens" = Return (VArr elems)
      end
  end.

(** The cache is as constructed, or holds tokens of the documented
    shape, all in [P]. *)
Definition typed_cache (P : Token -> Prop) (this : client) : Prop :=
  (_cachedSentence this = None /\ _cachedTokens this = VNull) \/
  (exists (s : string) (toks : list Token),
      _cachedSentence this = Some s /\
      _cachedTokens this = tokens_value toks /\
      Forall P toks).

(** [0 <= start <= end] *)
Definition span_ok (t : Token) : Prop :=
  0 <= t_start t /\ t_start t <= t_end t.

(** [length >= 0] and [offset >= 0] *)
Definition result_nonneg (r : result) : Prop :=
  exists (len off : Z),
    r_length r = Int len /\ r_offset r = VNum (Int off) /\
    0 <= len /\ 0 <= off.

(** The token and the bodies of the concrete runs below. *)
Definition tabeta : Token := mkToken "食べた" "食べる" 0 3.

Definition ok_body (data : value) : fetch_outcome :=
  FetchResolves (mkResponse 200 (JsonResolves data)).

(** Two tokens with integer offsets as the wire format allows them: a
    span that starts before the text, and one that ends before it
    starts. *)
Definition early : Token := mkToken "x" "x" (-2) 1.
Definition backwards : Token := mkToken "x" "x" (-2) (-3).

(** The request fails before a body is parsed: [fetch] rejects, the
    status is not 2xx, or [response.json()] rejects. *)
Definition fails_before_body (net : fetch_outcome) : bool :=
  match net with
  | FetchRejects _ => true
  | FetchResolves r =>
      negb (ok r) ||
      match json r with
      | JsonRejects _ => true
      | JsonResolves _ => false
      end
  end.

(** A stand-in runtime for the concrete runs below; no run below
    converts a string or an array to a number. *)
Definition StringToNumber0 (_ : string) : number := NaN.
Definition ArrayToNumber0 (_ : list value) : completion number := Return NaN.

(** A line written to the log. *)
Definition is_log (ev : event) : bool :=
  match ev with
  | EvLogWarnStatus _ | EvLogErrorTimedOut | EvLogError _ => true
  | _ => false
  end.

(** A value other than [null] on which [for ... of] throws. *)
Definition not_iterable (v : value) : bool :=
  match v with
  | VUndefined | VBool _ | VNum _ | VObj _ => true
  | _ => false
  end.

(** A parsed body that is not an object and not [null]. *)
Definition non_object (v : value) : bool :=
  match v with
  | VBool _ | VNum _ | VStr _ | VArr _ => true
  | _ => false
  end.

(** A client whose cache holds the sentence of [tabeta]. *)
Definition cached_tabeta : client :=
  with_cache constructor "食べた" (tokens_value [tabeta]).

(** [props.k], [undefined] when the key is missing. *)
Definition prop_or_undefined (k : string) (props : list (string * value))
  : value :=
  match lookup k props with
  | Some v => v
  | None => VUndefined
  end.

(** ** The call against the clock *)

(** A time in milliseconds after the call, or never. *)
Inductive instant : Type :=
| At (ms : Z)
| Never.

(** What [fetch] settles with when nothing aborts it: a rejection by
    the transport, or a response, whose body is complete at [body_at];
    [response.json()] settles then, with [json r], and does not settle
    when the body never completes. *)
Inductive arrival : Type :=
| Fails (e : exn)
| Responds (r : response) (body_at : instant).

(** The service as the clock sees it.  [timer_wins_tie] is the choice of
    the event loop when [fetch] would settle in the very millisecond in
    which the timer is due. *)
Record service : Type := mkService {
  fetch_at : instant;
  fetch_with : arrival;
  timer_wins_tie : bool
}.

(** The race of lines 57-70 between the timer, set for [timeout] ms,
    and [fetch]: [fetch] settles first, at some time and with some
    arrival, or ([None]) the timer is due first and its callback
    [() => controller.abort()] runs. *)
Definition fetch_settles (timeout : Z) (svc : service) : option (Z * arrival) :=
  match fetch_at svc with
  | Never => None
  | At t =>
      if (timeout <? t) || ((timeout =? t) && timer_wins_tie svc) then None
      else Some (t, fetch_with svc)
  end.

Definition timer_fires (timeout : Z) (svc : service) : bool :=
  match fetch_settles timeout svc with
  | None => true
  | Some _ => false
  end.

(** How a call ends: the promise settles at [ms], after the callback of
    the timer has aborted the request or not; or it never settles, the
    method being suspended with the fields and the trace it has then. *)
Inductive call_end : Type :=
| SettlesAt (ms : Z) (aborted : bool) (res : completion (option result))
    (this' : client) (tr : list event)
| NeverSettles (this' : client) (tr : list event).

Section TimedProgram.

Variable StringToNumber : string -> number.
Variable ArrayToNumber : list value -> completion number.

(** The promise of a call that goes on with [net] settles at [ms]. *)
Definition settles (ms : Z) (aborted : bool) (sentence : string)
    (cursorIndex : number) (net : fetch_outcome) (this : client) : call_end :=
  let '(res, this', tr) :=
    getJishokei StringToNumber ArrayToNumber sentence cursorIndex net this in
  SettlesAt ms aborted res this' tr.

(** [getJishokei] with the clock running.  A call served from the cache
    settles at once.  Otherwise the timer of line 58 races [fetch]: when
    the timer is first, its callback aborts the request and [fetch]
    rejects with an AbortError; when [fetch] is first, line 72 clears
    the timer, and on a 2xx status line 80 waits for the body for as
    long as it takes, nothing being left to abort the request. *)
Definition getJishokei_timed (sentence : string) (cursorIndex : number)
    (svc : service) (this : client) : call_end :=
  if cache_miss this sentence then
    match fetch_settles (_timeout this) svc with
    | None =>
        settles (_timeout this) true sentence cursorIndex
                (FetchRejects AbortError) this
    | Some (t, Fails e) =>
        settles t false sentence cursorIndex (FetchRejects e) this
    | Some (t, Responds r body_at) =>
        if ok r then
          match body_at with
          | At u =>
              settles (Z.max t u) false sentence cursorIndex
                      (FetchResolves r) this
          | Never =>
              NeverSettles this
                (request_events this sentence cursorIndex ++ [EvClearTimeout])
          end
        else settles t false sentence cursorIndex (FetchResolves r) this
    end
  else
    settles 0 false sentence cursorIndex (FetchRejects AbortError) this.

End TimedProgram.

(** A service that answers 200 with the body of the end-to-end example:
    the response is there after [t] ms, its body is complete at
    [body_at]. *)
Definition tabeta_service (t : Z) (body_at : instant) : service :=
  mkService (At t)
    (Responds
       (mkResponse 200 (JsonResolves (response_data [tabeta] (Some tabeta))))
       body_at)
    false.

(** Offsets on which the subtraction of doubles is exact. *)
Definition exact_span (t : Token) : Prop :=
  - 2 ^ 52 <= t_start t <= 2 ^ 52 /\ - 2 ^ 52 <= t_end t <= 2 ^ 52.

(** * Properties *)

Unset Implicit Arguments.

Section Properties.

Variable StringToNumber : string -> number.
Variable ArrayToNumber : list value -> completion number.

Local Abbreviation getJ := (getJishokei StringToNumber ArrayToNumber).
Local Abbreviation getJ_rescan := (getJishokei_rescan StringToNumber ArrayToNumber).
Local Abbreviation findToken := (_findTokenAtCursor StringToNumber ArrayToNumber).
Local Abbreviation runJ := (run StringToNumber ArrayToNumber).

(** ** The scan on tokens of the documented shape *)

Lemma covers_token_value (t : Token) (cursorIndex : number) :
  covers StringToNumber ArrayToNumber (token_value t) cursorIndex
  = Return (covers_tok cursorIndex t).
Proof.
  unfold covers, covers_tok. simpl.
  destruct cursorIndex as [|c]; simpl; [reflexivity|].
  destruct (t_start t <=? c); reflexivity.
Qed.

Lemma scan_tokens (toks : list Token) (cursorIndex : number) :
  scan StringToNumber ArrayToNumber (map token_value toks) cursorIndex
  = Return (current_value (first_covering toks cursorIndex)).
Proof.
  unfold first_covering.
  induction toks as [|t rest IH]; simpl; [reflexivity|].
  rewrite covers_token_value. simpl.
  destruct (covers_tok cursorIndex t); [reflexivity | exact IH].
Qed.

Lemma findToken_tokens (this : client) (toks : list Token) (cursorIndex : number) :
  _cachedTokens this = tokens_value toks ->
  findToken this cursorIndex
  = Return (current_value (first_covering toks cursorIndex)).
Proof.
  intros Htoks. unfold _findTokenAtCursor. rewrite Htoks. simpl.
  apply scan_tokens.
Qed.

Lemma make_result_token (t : Token) :
  make_result StringToNumber ArrayToNumber (Return (token_value t))
  = Return (token_result t).
Proof. reflexivity. Qed.

Lemma sentence_is_same (s : string) : sentence_is (Some s) s = true.
Proof. simpl. apply String.eqb_refl. Qed.

(** On a cursor that is an integer the test of the scan is the double
    inequality of the source. *)
Lemma covers_tok_spec (t : Token) (c : Z) :
  covers_tok (Int c) t = true <-> t_start t <= c < t_end t.
Proof.
  unfold covers_tok, num_le, num_lt.
  rewrite andb_true_iff, Z.leb_le, Z.ltb_lt. tauto.
Qed.

(** [first_covering] is the first in order: nothing before it covers. *)
Lemma first_covering_first (toks : list Token) (cursorIndex : number) (t : Token) :
  first_covering toks cursorIndex = Some t ->
  exists before after,
    toks = before ++ t :: after /\
    covers_tok cursorIndex t = true /\
    forallb (fun u => negb (covers_tok cursorIndex u)) before = true.
Proof.
  unfold first_covering.
  induction toks as [|u rest IH]; simpl; [discriminate|].
  destruct (covers_tok cursorIndex u) eqn:Hu.
  - intros [= ->]. exists [], rest. auto.
  - intros Hrest. destruct (IH Hrest) as (before & after & -> & Ht & Hbefore).
    exists (u :: before), after. simpl. rewrite Hu. auto.
Qed.

(** ** The method, branch by branch *)

Lemma getJ_hit (this : client) (sentence : string) (cursorIndex : number)
    (net : fetch_outcome) :
  cache_miss this sentence = false ->
  getJ sentence cursorIndex net this
  = (from_cache StringToNumber ArrayToNumber this cursorIndex, this, []).
Proof.
  intros Hhit. unfold cache_miss in Hhit. apply negb_false_iff in Hhit.
  unfold getJishokei, from_cache, bind, read, this_call, lift, ret.
  rewrite Hhit.
  destruct (findToken this cursorIndex) as [token|e]; [|reflexivity].
  unfold cbind. destruct (is_null token); [reflexivity|].
  cbn [negb]. destruct (make_result _ _ (Return token)); reflexivity.
Qed.

Lemma getJ_fetch_rejects (this : client) (sentence : string)
    (cursorIndex : number) (e : exn) :
  cache_miss this sentence = true ->
  getJ sentence cursorIndex (FetchRejects e) this
  = (Return None, this,
     request_events this sentence cursorIndex ++ [catch_log e]).
Proof.
  intros Hmiss. unfold cache_miss in Hmiss. apply negb_true_iff in Hmiss.
  unfold getJishokei, bind, read, try_catch, emit, await_fetch, lift, ret,
    catch_log.
  rewrite Hmiss. simpl.
  destruct (is_abort e); reflexivity.
Qed.

Lemma getJ_not_ok (this : client) (sentence : string)
    (cursorIndex : number) (r : response) :
  cache_miss this sentence = true ->
  ok r = false ->
  getJ sentence cursorIndex (FetchResolves r) this
  = (Return None, this,
     request_events this sentence cursorIndex
     ++ [EvClearTimeout; EvLogWarnStatus (status r)]).
Proof.
  intros Hmiss Hok. unfold cache_miss in Hmiss. apply negb_true_iff in Hmiss.
  unfold getJishokei, bind, read, try_catch, emit, await_fetch, lift, ret.
  rewrite Hmiss, Hok. reflexivity.
Qed.

Lemma getJ_json_rejects (this : client) (sentence : string)
    (cursorIndex : number) (r : response) (e : exn) :
  cache_miss this sentence = true ->
  ok r = true ->
  json r = JsonRejects e ->
  getJ sentence cursorIndex (FetchResolves r) this
  = (Return None, this,
     request_events this sentence cursorIndex
     ++ [EvClearTimeout; catch_log e]).
Proof.
  intros Hmiss Hok Hjson.
  unfold cache_miss in Hmiss. apply negb_true_iff in Hmiss.
  unfold getJishokei, bind, read, try_catch, emit, await_fetch, await_json,
    lift, ret, catch_log.
  rewrite Hmiss, Hok, Hjson. simpl.
  destruct (is_abort e); reflexivity.
Qed.

Lemma getJ_body (this : client) (sentence : string)
    (cursorIndex : number) (r : response) (data : value) :
  cache_miss this sentence = true ->
  ok r = true ->
  json r = JsonResolves data ->
  getJ sentence cursorIndex (FetchResolves r) this
  = match get data "tokens" with
    | Throw e =>
        (Return None, with_sentence this sentence,
         request_events this sentence cursorIndex
         ++ [EvClearTimeout; catch_log e])
    | Return tokens =>
        match after_cache_write StringToNumber ArrayToNumber data with
        | Return x =>
            (Return x, with_cache this sentence tokens,
             request_events this sentence cursorIndex ++ [EvClearTimeout])
        | Throw e =>
            (Return None, with_cache this sentence tokens,
             request_events this sentence cursorIndex
             ++ [EvClearTimeout; catch_log e])
        end
    end.
Proof.
  intros Hmiss Hok Hjson.
  unfold cache_miss in Hmiss. apply negb_true_iff in Hmiss.
  unfold getJishokei, after_cache_write, bind, read, try_catch, emit,
    await_fetch, await_json, lift, ret, set_cachedSentence, set_cachedTokens,
    catch_log, with_sentence, with_cache.
  rewrite Hmiss, Hok, Hjson. cbn [negb andb fst snd app].
  destruct (get data "tokens") as [tokens|e].
  - unfold cbind. destruct (get data "current") as [current|e].
    + destruct (is_null current); [reflexivity|].
      destruct (make_result _ _ (Return current)) as [x|e];
        [reflexivity|].
      destruct (is_abort e); reflexivity.
    + destruct (is_abort e); reflexivity.
  - destruct (is_abort e); reflexivity.
Qed.

(** ** The cache path *)

(** C1. When the cached sentence is the argument and the cache holds an
    array of tokens, the call issues no request and logs nothing (its
    trace is empty), leaves every field as it was, and resolves to the
    result built from the first cached token with
    [start <= cursorIndex < end], to [null] when there is none. *)
Theorem cache_hit_first_covering_token
    (this : client) (sentence : string) (cursorIndex : number)
    (net : fetch_outcome) (toks : list Token) :
  _cachedSentence this = Some sentence ->
  _cachedTokens this = tokens_value toks ->
  getJ sentence cursorIndex net this
  = (Return (option_map token_result (first_covering toks cursorIndex)),
     this, []).
Proof.
  intros Hs Ht.
  rewrite getJ_hit.
  - unfold from_cache. rewrite (findToken_tokens this toks cursorIndex Ht).
    destruct (first_covering toks cursorIndex) as [t|]; reflexivity.
  - unfold cache_miss. rewrite Hs, Ht, sentence_is_same. reflexivity.
Qed.

(** ** The network path on a body that follows the wire contract *)

(** C3. On a cache miss answered by a 2xx response whose body is
    [{tokens, current}], the cache becomes the argument sentence and the
    response's tokens, whether [current] is [null] or not, and the call
    resolves to the result built from [current], to [null] when
    [current] is [null]. *)
Theorem success_replaces_cache
    (this : client) (sentence : string) (cursorIndex : number)
    (r : response) (toks : list Token) (cur : option Token) :
  cache_miss this sentence = true ->
  ok r = true ->
  json r = JsonResolves (response_data toks cur) ->
  getJ sentence cursorIndex (FetchResolves r) this
  = (Return (option_map token_result cur),
     mkClient (_apiUrl this) (_timeout this) (Some sentence) (tokens_value toks),
     [EvSetTimeout (_timeout this);
      EvFetch (_apiUrl this) sentence cursorIndex;
      EvClearTimeout]).
Proof.
  intros Hmiss Hok Hjson.
  rewrite (getJ_body this sentence cursorIndex r _ Hmiss Hok Hjson).
  destruct cur as [t|]; reflexivity.
Qed.

(** ** One call on a typed cache *)

Lemma after_cache_write_contract (toks : list Token) (cur : option Token) :
  after_cache_write StringToNumber ArrayToNumber (response_data toks cur)
  = Return (option_map token_result cur).
Proof. destruct cur as [t|]; reflexivity. Qed.

Lemma first_covering_in (toks : list Token) (cursorIndex : number) (t : Token) :
  first_covering toks cursorIndex = Some t -> In t toks.
Proof. intros H. apply (find_some _ _ H). Qed.

(** What a call resolves to when every token it can meet is of the
    documented shape and in [P]. *)
Definition settles_in (P : Token -> Prop) (res : completion (option result))
  : Prop :=
  res = Return None \/ exists t, P t /\ res = Return (Some (token_result t)).

Lemma getJ_typed (P : Token -> Prop) (this : client) (sentence : string)
    (cursorIndex : number) (net : fetch_outcome) :
  typed_cache P this ->
  well_behaved P net ->
  typed_cache P (snd (fst (getJ sentence cursorIndex net this))) /\
  settles_in P (fst (fst (getJ sentence cursorIndex net this))).
Proof.
  intros Hcache Hnet.
  destruct (cache_miss this sentence) eqn:Hmiss.
  - destruct net as [e|r].
    + rewrite getJ_fetch_rejects by assumption. simpl. split; [assumption|now left].
    + destruct (ok r) eqn:Hok.
      * simpl in Hnet. specialize (Hnet Hok).
        destruct (json r) as [e|data] eqn:Hjson.
        -- rewrite (getJ_json_rejects this sentence cursorIndex r e) by assumption.
           simpl. split; [assumption|now left].
        -- destruct Hnet as (toks & cur & -> & Htoks & Hcur).
           rewrite (getJ_body this sentence cursorIndex r _ Hmiss Hok Hjson).
           rewrite after_cache_write_contract. simpl. split.
           ++ right. exists sentence, toks. auto.
           ++ destruct cur as [t|]; [right|now left].
              exists t. split; [now apply Hcur | reflexivity].
      * rewrite getJ_not_ok by assumption. simpl. split; [assumption|now left].
  - rewrite getJ_hit by assumption. simpl.
    split; [assumption|].
    destruct Hcache as [[Hs Ht]|(s0 & toks & Hs & Ht & Htoks)].
    + unfold cache_miss in Hmiss. rewrite Hs in Hmiss. discriminate.
    + unfold from_cache. rewrite (findToken_tokens this toks cursorIndex Ht).
      destruct (first_covering toks cursorIndex) as [t|] eqn:Hfind; [right|now left].
      exists t. split; [|reflexivity].
      rewrite Forall_forall in Htoks. apply Htoks.
      now apply (first_covering_in toks cursorIndex).
Qed.

(** ** Calls one after the other *)

Lemma run_cons (c : call) (rest : list call) (this : client) :
  runJ (c :: rest) this
  = (let step := getJ (c_sentence c) (c_cursorIndex c) (c_net c) this in
     ((fst (fst step), snd step) :: fst (runJ rest (snd (fst step))),
      snd (runJ rest (snd (fst step))))).
Proof.
  simpl.
  destruct (getJ (c_sentence c) (c_cursorIndex c) (c_net c) this) as [[r this'] tr].
  simpl. destruct (runJ rest this') as [outs this'']. reflexivity.
Qed.

Lemma run_typed (P : Token -> Prop) (calls : list call) :
  forall this : client,
    typed_cache P this ->
    Forall (fun c => well_behaved P (c_net c)) calls ->
    typed_cache P (snd (runJ calls this)) /\
    Forall (fun out : outcome => settles_in P (fst out)) (fst (runJ calls this)).
Proof.
  induction calls as [|c rest IH]; intros this Hcache Hcalls.
  - simpl. auto.
  - inversion Hcalls as [|c' rest' Hc Hrest]; subst.
    destruct (getJ_typed P this (c_sentence c) (c_cursorIndex c) (c_net c)
                Hcache Hc) as [Hcache' Hres].
    destruct (IH _ Hcache' Hrest) as [Hfinal Houts].
    rewrite run_cons. simpl. split; [assumption|].
    constructor; assumption.
Qed.

Lemma typed_cache_constructor (P : Token -> Prop) : typed_cache P constructor.
Proof. left. split; reflexivity. Qed.

Lemma typed_cache_consistent (P : Token -> Prop) (this : client) :
  typed_cache P this -> cache_consistent this = true.
Proof.
  unfold cache_consistent.
  intros [[-> ->]|(s & toks & -> & -> & _)]; reflexivity.
Qed.

(** A body of the wire contract carries an array in [tokens]. *)
Lemma well_behaved_tokens_is_array (P : Token -> Prop) (net : fetch_outcome) :
  well_behaved P net -> tokens_is_array net.
Proof.
  destruct net as [e|r]; simpl; [trivial|].
  intros Hnet Hok. specialize (Hnet Hok).
  destruct (json r) as [e|data]; [trivial|].
  destruct Hnet as (toks & cur & -> & _).
  exists (map token_value toks). reflexivity.
Qed.

(** A call that is served from the cache, fails before a body is
    parsed, or is answered by a body with an array in [tokens] either
    leaves every field as it was or replaces both cache fields with the
    argument sentence and that array. *)
Lemma getJ_array_step (this : client) (sentence : string)
    (cursorIndex : number) (net : fetch_outcome) :
  tokens_is_array net ->
  snd (fst (getJ sentence cursorIndex net this)) = this \/
  exists r data elems,
    net = FetchResolves r /\ ok r = true /\
    json r = JsonResolves data /\
    get data "tokens" = Return (VArr elems) /\
    snd (fst (getJ sentence cursorIndex net this))
    = with_cache this sentence (VArr elems).
Proof.
  intros Hnet.
  destruct (cache_miss this sentence) eqn:Hmiss.
  - destruct net as [e|r].
    + left. now rewrite getJ_fetch_rejects.
    + destruct (ok r) eqn:Hok.
      * simpl in Hnet. specialize (Hnet Hok).
        destruct (json r) as [e|data] eqn:Hjson.
        -- left. now rewrite (getJ_json_rejects this sentence cursorIndex r e).
        -- destruct Hnet as (elems & Htokens).
           right. exists r, data, elems. repeat split; try assumption.
           rewrite (getJ_body this sentence cursorIndex r _ Hmiss Hok Hjson).
           rewrite Htokens.
           destruct (after_cache_write _ _ data); reflexivity.
      * left. now rewrite getJ_not_ok.
  - left. now rewrite getJ_hit.
Qed.

Lemma cache_consistent_step (this : client) (sentence : string)
    (cursorIndex : number) (net : fetch_outcome) :
  cache_consistent this = true ->
  tokens_is_array net ->
  cache_consistent (snd (fst (getJ sentence cursorIndex net this))) = true.
Proof.
  intros Hcons Hnet.
  destruct (getJ_array_step this sentence cursorIndex net Hnet)
    as [->|(r & data & elems & _ & _ & _ & _ & ->)]; [assumption|reflexivity].
Qed.

Lemma cache_populated_step (this : client) (sentence : string)
    (cursorIndex : number) (net : fetch_outcome) :
  cache_populated this = true ->
  tokens_is_array net ->
  cache_populated (snd (fst (getJ sentence cursorIndex net this))) = true.
Proof.
  intros Hpop Hnet.
  destruct (getJ_array_step this sentence cursorIndex net Hnet)
    as [->|(r & data & elems & _ & _ & _ & _ & ->)]; [assumption|reflexivity].
Qed.

(** The test of line 43 guards the state in which the sentence is set
    and the tokens are [null]: the call goes to the network. *)
Lemma null_tokens_is_miss (this : client) (sentence : string) :
  _cachedTokens this = VNull -> cache_miss this sentence = true.
Proof.
  intros Htokens. unfold cache_miss. rewrite Htokens.
  simpl. now rewrite andb_false_r.
Qed.

(** C5, amended. The cache fields are both [null] after construction,
    and from any state in which they are [null] together or set
    together they are so again after every sequence of calls each of
    which is served from the cache, fails before a body is parsed
    (rejected [fetch], status outside 2xx, rejected [json()]), or is
    answered by a 2xx body that carries an array in [tokens]. *)
Theorem cache_consistent_along_runs (this : client) (calls : list call) :
  cache_consistent this = true ->
  Forall (fun c => tokens_is_array (c_net c)) calls ->
  cache_consistent constructor = true /\
  cache_consistent (snd (runJ calls this)) = true.
Proof.
  intros Hcons Hcalls. split; [reflexivity|].
  revert this Hcons.
  induction Hcalls as [|c rest Hc Hrest IH]; intros this Hcons.
  - exact Hcons.
  - rewrite run_cons. simpl. apply IH.
    now apply cache_consistent_step.
Qed.

(** C9, amended. A populated cache is still populated after a call that
    is served from the cache, fails before a body is parsed, or is
    answered by a 2xx body that carries an array in [tokens]; such a
    call leaves every field as it was, or replaces both cache fields
    with the argument sentence and the array of the response. *)
Theorem populated_cache_stays_populated (this : client) (sentence : string)
    (cursorIndex : number) (net : fetch_outcome) :
  cache_populated this = true ->
  tokens_is_array net ->
  cache_populated (snd (fst (getJ sentence cursorIndex net this))) = true /\
  (snd (fst (getJ sentence cursorIndex net this)) = this \/
   exists r data elems,
     net = FetchResolves r /\ ok r = true /\
     json r = JsonResolves data /\
     get data "tokens" = Return (VArr elems) /\
     snd (fst (getJ sentence cursorIndex net this))
     = with_cache this sentence (VArr elems)).
Proof.
  intros Hpop Hnet. split.
  - now apply cache_populated_step.
  - now apply getJ_array_step.
Qed.

(** The same along any number of calls. *)
Lemma populated_along_runs (calls : list call) :
  forall this : client,
    cache_populated this = true ->
    Forall (fun c => tokens_is_array (c_net c)) calls ->
    cache_populated (snd (runJ calls this)) = true.
Proof.
  induction calls as [|c rest IH]; intros this Hpop Hcalls.
  - exact Hpop.
  - inversion Hcalls as [|c' rest' Hc Hrest]; subst.
    rewrite run_cons. simpl. apply IH; [|assumption].
    now apply cache_populated_step.
Qed.

(** [_cachedSentence] never goes back to [null], whatever the request
    yields. *)
Lemma cachedSentence_stays_set (this : client) (sentence : string)
    (cursorIndex : number) (net : fetch_outcome) :
  _cachedSentence this <> None ->
  _cachedSentence (snd (fst (getJ sentence cursorIndex net this))) <> None.
Proof.
  intros Hset.
  destruct (cache_miss this sentence) eqn:Hmiss.
  - destruct net as [e|r].
    + now rewrite getJ_fetch_rejects.
    + destruct (ok r) eqn:Hok.
      * destruct (json r) as [e|data] eqn:Hjson.
        -- now rewrite (getJ_json_rejects this sentence cursorIndex r e).
        -- rewrite (getJ_body this sentence cursorIndex r data) by assumption.
           destruct (get data "tokens") as [tokens|e]; [|discriminate].
           destruct (after_cache_write _ _ data); discriminate.
      * now rewrite getJ_not_ok.
  - now rewrite getJ_hit.
Qed.

(** While the service keeps to the wire contract no call rejects. *)
Theorem contract_runs_never_throw (calls : list call) :
  Forall (fun c => well_behaved (fun _ => True) (c_net c)) calls ->
  Forall (fun out : outcome => exists x, fst out = Return x)
         (fst (runJ calls constructor)).
Proof.
  intros Hcalls.
  destruct (run_typed (fun _ => True) calls constructor
              (typed_cache_constructor _) Hcalls) as [_ Houts].
  eapply Forall_impl; [|exact Houts].
  intros out [->|(t & _ & ->)]; eauto.
Qed.

(** ** Failures *)

(** A request that fails before a body is parsed leaves every field as
    it was, and so does a call served from the cache. *)
Theorem failure_before_body_keeps_cache (this : client) (sentence : string)
    (cursorIndex : number) (net : fetch_outcome) :
  fails_before_body net = true ->
  snd (fst (getJ sentence cursorIndex net this)) = this.
Proof.
  intros Hfail.
  destruct (cache_miss this sentence) eqn:Hmiss.
  - destruct net as [e|r].
    + now rewrite getJ_fetch_rejects.
    + destruct (ok r) eqn:Hok.
      * simpl in Hfail. rewrite Hok in Hfail. simpl in Hfail.
        destruct (json r) as [e|data] eqn:Hjson; [|discriminate].
        now rewrite (getJ_json_rejects this sentence cursorIndex r e).
      * now rewrite getJ_not_ok.
  - now rewrite getJ_hit.
Qed.

(** The [try] covers the whole network path: whatever the request
    yields, a call that goes to the network resolves. *)
Theorem network_path_never_throws (this : client) (sentence : string)
    (cursorIndex : number) (net : fetch_outcome) :
  cache_miss this sentence = true ->
  exists x, fst (fst (getJ sentence cursorIndex net this)) = Return x.
Proof.
  intros Hmiss.
  destruct net as [e|r].
  - rewrite getJ_fetch_rejects by assumption. now exists None.
  - destruct (ok r) eqn:Hok.
    + destruct (json r) as [e|data] eqn:Hjson.
      * rewrite (getJ_json_rejects this sentence cursorIndex r e) by assumption.
        now exists None.
      * rewrite (getJ_body this sentence cursorIndex r data) by assumption.
        destruct (get data "tokens") as [tokens|e]; [|now exists None].
        destruct (after_cache_write _ _ data) as [x|e];
          [now exists x | now exists None].
    + rewrite getJ_not_ok by assumption. now exists None.
Qed.

(** When the timer aborts the request the [catch] logs the line kept
    for the timeout, the call resolves to [null] and no field changes. *)
Lemma abort_logs_timeout (this : client) (sentence : string)
    (cursorIndex : number) :
  cache_miss this sentence = true ->
  getJ sentence cursorIndex (FetchRejects AbortError) this
  = (Return None, this,
     request_events this sentence cursorIndex ++ [EvLogErrorTimedOut]).
Proof. intros Hmiss. now rewrite getJ_fetch_rejects. Qed.

(** C2. On a new client a call for [a] fills the cache; a call for [b]
    is then answered 200 with the body [null].  Line 83 has stored [b]
    when line 84 throws on [data.tokens]: the call logs the error and
    resolves to [null], and the cache is left with the new sentence and
    the old tokens, so that the next call for [b] is answered from the
    tokens of [a]. *)
Theorem null_body_mixes_cache :
  runJ [mkCall "a" (Int 0) (ok_body (response_data [tabeta] (Some tabeta)));
        mkCall "b" (Int 0) (ok_body VNull);
        mkCall "b" (Int 1) (FetchRejects TypeError)]
       constructor
  = ([(Return (Some (token_result tabeta)),
       [EvSetTimeout 5000; EvFetch "http://127.0.0.1:8000" "a" (Int 0);
        EvClearTimeout]);
      (Return None,
       [EvSetTimeout 5000; EvFetch "http://127.0.0.1:8000" "b" (Int 0);
        EvClearTimeout; EvLogError TypeError]);
      (Return (Some (token_result tabeta)), [])],
     with_cache constructor "b" (tokens_value [tabeta])).
Proof. reflexivity. Qed.

(** C4. On a new client a call for [a] is answered 200 with the body
    [{tokens: [null], current: null}] and resolves to [null]; the next
    call for [a] is served from the cache, reads [token.start] on
    [null] outside the [try], and rejects with a TypeError. *)
Theorem malformed_token_rejects_next_call :
  runJ [mkCall "a" (Int 0)
          (ok_body (VObj [("tokens", VArr [VNull]); ("current", VNull)]));
        mkCall "a" (Int 0) (FetchRejects TypeError)]
       constructor
  = ([(Return None,
       [EvSetTimeout 5000; EvFetch "http://127.0.0.1:8000" "a" (Int 0);
        EvClearTimeout]);
      (Throw TypeError, [])],
     with_cache constructor "a" (VArr [VNull])).
Proof. reflexivity. Qed.

(** ** The two ways to answer on the network path *)

Lemma getJ_rescan_hit (this : client) (sentence : string)
    (cursorIndex : number) (net : fetch_outcome) :
  cache_miss this sentence = false ->
  getJ_rescan sentence cursorIndex net this
  = getJ sentence cursorIndex net this.
Proof.
  intros Hhit. unfold cache_miss in Hhit. apply negb_false_iff in Hhit.
  unfold getJishokei, getJishokei_rescan, bind, read.
  rewrite Hhit. reflexivity.
Qed.

Lemma getJ_rescan_contract (this : client) (sentence : string)
    (cursorIndex : number) (r : response) (toks : list Token)
    (cur : option Token) :
  cache_miss this sentence = true ->
  ok r = true ->
  json r = JsonResolves (response_data toks cur) ->
  getJ_rescan sentence cursorIndex (FetchResolves r) this
  = (Return (option_map token_result (first_covering toks cursorIndex)),
     with_cache this sentence (tokens_value toks),
     request_events this sentence cursorIndex ++ [EvClearTimeout]).
Proof.
  intros Hmiss Hok Hjson.
  unfold cache_miss in Hmiss. apply negb_true_iff in Hmiss.
  unfold getJishokei_rescan, bind, read, try_catch, emit, await_fetch,
    await_json, this_call, lift, ret, set_cachedSentence, set_cachedTokens.
  rewrite Hmiss, Hok, Hjson. simpl.
  rewrite (findToken_tokens
             (mkClient (_apiUrl this) (_timeout this) (Some sentence)
                       (tokens_value toks))
             toks cursorIndex eq_refl).
  destruct (first_covering toks cursorIndex) as [t|]; reflexivity.
Qed.

(** C7. When the body of a 2xx response is [{tokens, current}] with
    [current] the first element of [tokens] whose span covers the
    cursor, [null] when none does, the method as written, which maps
    [data.current], and the alternative, which scans the tokens just
    cached, resolve to the same value, leave the same fields and the
    same trace. *)
Theorem current_equals_rescan
    (this : client) (sentence : string) (cursorIndex : number)
    (r : response) (toks : list Token) :
  ok r = true ->
  json r = JsonResolves (response_data toks (first_covering toks cursorIndex)) ->
  getJ sentence cursorIndex (FetchResolves r) this
  = getJ_rescan sentence cursorIndex (FetchResolves r) this.
Proof.
  intros Hok Hjson.
  destruct (cache_miss this sentence) eqn:Hmiss.
  - rewrite (getJ_rescan_contract this sentence cursorIndex r toks _
               Hmiss Hok Hjson).
    rewrite (getJ_body this sentence cursorIndex r _ Hmiss Hok Hjson).
    rewrite after_cache_write_contract. reflexivity.
  - symmetry. now apply getJ_rescan_hit.
Qed.

(** ** Sign of the result *)

Lemma token_result_nonneg (t : Token) :
  span_ok t -> result_nonneg (token_result t).
Proof.
  intros [Hstart Hend].
  exists (t_end t - t_start t), (t_start t). simpl.
  repeat split; lia.
Qed.

(** C8, amended. From construction on, as long as every token the
    service returns, in [tokens] or as [current], has
    [0 <= start <= end], every result a call resolves to that is not
    [null] has [length >= 0] and [offset >= 0], on the cache path and on
    the network path. *)
Theorem results_nonneg_for_valid_spans (calls : list call) :
  Forall (fun c => well_behaved span_ok (c_net c)) calls ->
  Forall (fun out : outcome =>
            forall r, fst out = Return (Some r) -> result_nonneg r)
         (fst (runJ calls constructor)).
Proof.
  intros Hcalls.
  destruct (run_typed span_ok calls constructor
              (typed_cache_constructor _) Hcalls) as [_ Houts].
  eapply Forall_impl; [|exact Houts].
  intros out [Hnone|(t & Ht & Hsome)] r Hr.
  - rewrite Hnone in Hr. discriminate.
  - rewrite Hsome in Hr. injection Hr as <-.
    now apply token_result_nonneg.
Qed.

(** ** An empty array of tokens *)

Lemma run_same_sentence_empty (sentence : string) (calls : list call) :
  forall this : client,
    _cachedSentence this = Some sentence ->
    _cachedTokens this = VArr [] ->
    Forall (fun c => c_sentence c = sentence) calls ->
    snd (runJ calls this) = this /\
    Forall (fun out : outcome => out = (Return None, []))
           (fst (runJ calls this)).
Proof.
  induction calls as [|c rest IH]; intros this Hs Ht Hcalls.
  - simpl. auto.
  - inversion Hcalls as [|c' rest' Hc Hrest]; subst.
    rewrite run_cons.
    rewrite getJ_hit.
    + unfold from_cache, _findTokenAtCursor. rewrite Ht. simpl.
      destruct (IH this Hs Ht Hrest) as [Hfinal Houts].
      split; [assumption|]. constructor; [reflexivity|assumption].
    + unfold cache_miss. rewrite Hs, Ht, sentence_is_same. reflexivity.
Qed.

(** C10. When a call goes to the network and the 2xx body carries
    [tokens: []], the cache holds the sentence with the empty array, and
    every later call with that sentence, whatever its cursor, resolves
    to [null] with an empty trace, so without a request; the fields stay
    as they are. *)
Theorem empty_tokens_cache_hits
    (this : client) (sentence : string) (cursorIndex : number)
    (r : response) (data : value) (calls : list call) :
  cache_miss this sentence = true ->
  ok r = true ->
  json r = JsonResolves data ->
  get data "tokens" = Return (VArr []) ->
  Forall (fun c => c_sentence c = sentence) calls ->
  snd (fst (getJ sentence cursorIndex (FetchResolves r) this))
  = with_cache this sentence (VArr []) /\
  snd (runJ calls (with_cache this sentence (VArr [])))
  = with_cache this sentence (VArr []) /\
  Forall (fun out : outcome => out = (Return None, []))
         (fst (runJ calls (with_cache this sentence (VArr [])))).
Proof.
  intros Hmiss Hok Hjson Htokens Hcalls.
  split.
  - rewrite (getJ_body this sentence cursorIndex r data Hmiss Hok Hjson).
    rewrite Htokens.
    destruct (after_cache_write _ _ data); reflexivity.
  - apply (run_same_sentence_empty sentence calls
             (with_cache this sentence (VArr [])) eq_refl eq_refl Hcalls).
Qed.

End Properties.

(** * Further properties of the method *)

Section Further.

Variable StringToNumber : string -> number.
Variable ArrayToNumber : list value -> completion number.

Local Abbreviation getJ := (getJishokei StringToNumber ArrayToNumber).
Local Abbreviation findToken := (_findTokenAtCursor StringToNumber ArrayToNumber).
Local Abbreviation runJ := (run StringToNumber ArrayToNumber).

(** ** What a call sends and logs *)

Lemma other_sentence_is_miss (this : client) (sentence : string) :
  _cachedSentence this <> Some sentence \/ _cachedTokens this = VNull ->
  cache_miss this sentence = true.
Proof.
  intros [Hs|Ht].
  - unfold cache_miss, sentence_is.
    destruct (_cachedSentence this) as [s|]; [|reflexivity].
    destruct (String.eqb s sentence) eqn:Heq; [|reflexivity].
    apply String.eqb_eq in Heq. subst. now contradiction Hs.
  - now apply null_tokens_is_miss.
Qed.

Lemma is_fetch_catch_log (e : exn) : is_fetch (catch_log e) = false.
Proof. unfold catch_log. destruct (is_abort e); reflexivity. Qed.

Lemma is_log_catch_log (e : exn) : is_log (catch_log e) = true.
Proof. unfold catch_log. destruct (is_abort e); reflexivity. Qed.

Lemma catch_log_not_clear (e : exn) : catch_log e <> EvClearTimeout.
Proof. unfold catch_log. destruct (is_abort e); discriminate. Qed.

(** The trace of a call that goes to the network, case by case. *)
Lemma miss_trace (this : client) (sentence : string) (cursorIndex : number)
    (net : fetch_outcome) :
  cache_miss this sentence = true ->
  exists rest,
    snd (getJ sentence cursorIndex net this)
    = request_events this sentence cursorIndex ++ rest /\
    ((exists e, net = FetchRejects e /\ rest = [catch_log e]) \/
     (exists r, net = FetchResolves r /\
        (rest = [EvClearTimeout; EvLogWarnStatus (status r)] \/
         rest = [EvClearTimeout] \/
         exists e, rest = [EvClearTimeout; catch_log e]))).
Proof.
  intros Hmiss.
  destruct net as [e|r].
  - rewrite getJ_fetch_rejects by assumption. eexists. split; [reflexivity|].
    left. eauto.
  - destruct (ok r) eqn:Hok.
    + destruct (json r) as [e|data] eqn:Hjson.
      * rewrite (getJ_json_rejects _ _ this sentence cursorIndex r e) by assumption.
        eexists. split; [reflexivity|]. right. exists r. eauto.
      * rewrite (getJ_body _ _ this sentence cursorIndex r data) by assumption.
        destruct (get data "tokens") as [tokens|e].
        -- destruct (after_cache_write _ _ data) as [x|e];
             (eexists; split; [reflexivity|]; right; exists r; eauto).
        -- eexists. split; [reflexivity|]. right. exists r. eauto.
    + rewrite getJ_not_ok by assumption. eexists. split; [reflexivity|].
      right. exists r. eauto.
Qed.

(** A call whose sentence is not the cached one, or made while the
    cached tokens are [null], sends exactly one request, whatever the
    cursor and whatever the request yields: to the configured URL, with
    the sentence and the cursor of the call. *)
Theorem other_sentence_sends_one_request (this : client) (sentence : string)
    (cursorIndex : number) (net : fetch_outcome) :
  _cachedSentence this <> Some sentence \/ _cachedTokens this = VNull ->
  filter is_fetch (snd (getJ sentence cursorIndex net this))
  = [EvFetch (_apiUrl this) sentence cursorIndex].
Proof.
  intros Hother.
  destruct (miss_trace this sentence cursorIndex net
              (other_sentence_is_miss this sentence Hother))
    as (rest & -> & Hrest).
  unfold request_events. simpl.
  destruct Hrest as [(e & _ & ->)|(r & _ & [->|[->|(e & ->)]])]; simpl;
    try rewrite is_fetch_catch_log; reflexivity.
Qed.

(** On a call that goes to the network the timer is cleared exactly
    when [fetch] resolves: after a rejected [fetch] it is left pending. *)
Theorem timer_cleared_iff_fetch_resolves (this : client) (sentence : string)
    (cursorIndex : number) (net : fetch_outcome) :
  cache_miss this sentence = true ->
  In EvClearTimeout (snd (getJ sentence cursorIndex net this)) <->
  exists r, net = FetchResolves r.
Proof.
  intros Hmiss.
  destruct (miss_trace this sentence cursorIndex net Hmiss)
    as (rest & -> & Hrest).
  unfold request_events.
  destruct Hrest as [(e & -> & ->)|(r & -> & Hrest)].
  - split.
    + simpl. intros [H|[H|[H|[]]]]; try discriminate.
      now contradiction (catch_log_not_clear e).
    + intros (r & Hr). discriminate.
  - split; [eauto|]. intros _.
    destruct Hrest as [->|[->|(e & ->)]]; simpl; auto.
Qed.

(** A call logs at most one line, and none when it resolves to a
    result. *)
Theorem result_is_never_logged (this : client) (sentence : string)
    (cursorIndex : number) (net : fetch_outcome) :
  (List.length (filter is_log (snd (getJ sentence cursorIndex net this))) <= 1)%nat /\
  forall r,
    fst (fst (getJ sentence cursorIndex net this)) = Return (Some r) ->
    filter is_log (snd (getJ sentence cursorIndex net this)) = [].
Proof.
  destruct (cache_miss this sentence) eqn:Hmiss.
  - destruct net as [e|r].
    + rewrite getJ_fetch_rejects by assumption. simpl.
      rewrite is_log_catch_log. split; [simpl; lia|discriminate].
    + destruct (ok r) eqn:Hok.
      * destruct (json r) as [e|data] eqn:Hjson.
        -- rewrite (getJ_json_rejects _ _ this sentence cursorIndex r e) by assumption.
           simpl. rewrite is_log_catch_log. split; [simpl; lia|discriminate].
        -- rewrite (getJ_body _ _ this sentence cursorIndex r data) by assumption.
           destruct (get data "tokens") as [tokens|e].
           ++ destruct (after_cache_write _ _ data) as [x|e]; simpl.
              ** split; [lia|reflexivity].
              ** rewrite is_log_catch_log. split; [simpl; lia|discriminate].
           ++ simpl. rewrite is_log_catch_log. split; [simpl; lia|discriminate].
      * rewrite getJ_not_ok by assumption. simpl.
        split; [lia|discriminate].
  - rewrite getJ_hit by assumption. simpl. split; [lia|reflexivity].
Qed.

(** On a status outside 2xx the body is not read: the call does the
    same whatever [response.json()] would yield. *)
Theorem non_2xx_ignores_body (this : client) (sentence : string)
    (cursorIndex : number) (st : Z) (b1 b2 : body_outcome) :
  ok (mkResponse st b1) = false ->
  getJ sentence cursorIndex (FetchResolves (mkResponse st b1)) this
  = getJ sentence cursorIndex (FetchResolves (mkResponse st b2)) this.
Proof.
  intros Hok.
  destruct (cache_miss this sentence) eqn:Hmiss.
  - rewrite !getJ_not_ok by assumption. reflexivity.
  - rewrite !getJ_hit by assumption. reflexivity.
Qed.

(** ** Fields a call leaves alone *)

Lemma config_step (this : client) (sentence : string)
    (cursorIndex : number) (net : fetch_outcome) :
  _apiUrl (snd (fst (getJ sentence cursorIndex net this))) = _apiUrl this /\
  _timeout (snd (fst (getJ sentence cursorIndex net this))) = _timeout this.
Proof.
  destruct (cache_miss this sentence) eqn:Hmiss.
  - destruct net as [e|r].
    + now rewrite getJ_fetch_rejects.
    + destruct (ok r) eqn:Hok.
      * destruct (json r) as [e|data] eqn:Hjson.
        -- now rewrite (getJ_json_rejects _ _ this sentence cursorIndex r e).
        -- rewrite (getJ_body _ _ this sentence cursorIndex r data) by assumption.
           destruct (get data "tokens") as [tokens|e]; [|now split].
           destruct (after_cache_write _ _ data); now split.
      * now rewrite getJ_not_ok.
  - now rewrite getJ_hit.
Qed.

(** No sequence of calls, whatever the service answers, changes the URL
    or the timeout the constructor has set. *)
Theorem config_never_changes (calls : list call) :
  forall this : client,
    _apiUrl (snd (runJ calls this)) = _apiUrl this /\
    _timeout (snd (runJ calls this)) = _timeout this.
Proof.
  induction calls as [|c rest IH]; intros this.
  - split; reflexivity.
  - rewrite run_cons. simpl.
    destruct (IH (snd (fst (getJ (c_sentence c) (c_cursorIndex c) (c_net c) this))))
      as [Hurl Htimeout].
    destruct (config_step this (c_sentence c) (c_cursorIndex c) (c_net c))
      as [Hurl' Htimeout'].
    split; congruence.
Qed.

(** Once a 2xx body has been parsed the cached sentence is the sentence
    of the call, so a call for any other sentence goes to the network:
    the cache keeps one sentence. *)
Theorem new_sentence_evicts_old (this : client) (old new : string)
    (cursorIndex : number) (r : response) (data : value) :
  old <> new ->
  cache_miss this new = true ->
  ok r = true ->
  json r = JsonResolves data ->
  cache_miss (snd (fst (getJ new cursorIndex (FetchResolves r) this))) old
  = true.
Proof.
  intros Hdiff Hmiss Hok Hjson.
  apply other_sentence_is_miss. left.
  rewrite (getJ_body _ _ this new cursorIndex r data) by assumption.
  destruct (get data "tokens") as [tokens|e].
  - destruct (after_cache_write _ _ data); simpl; congruence.
  - simpl. congruence.
Qed.

(** ** The scan of the cache *)

Lemma getJ_typed_hit (this : client) (sentence : string)
    (cursorIndex : number) (net : fetch_outcome) (toks : list Token) :
  _cachedSentence this = Some sentence ->
  _cachedTokens this = tokens_value toks ->
  getJ sentence cursorIndex net this
  = (Return (option_map token_result (first_covering toks cursorIndex)),
     this, []).
Proof.
  intros Hs Ht.
  rewrite getJ_hit.
  - unfold from_cache.
    rewrite (findToken_tokens _ _ this toks cursorIndex Ht).
    destruct (first_covering toks cursorIndex) as [t|]; reflexivity.
  - unfold cache_miss. rewrite Hs, Ht, sentence_is_same. reflexivity.
Qed.

Lemma hit_when_cached (this : client) (sentence : string) :
  _cachedSentence this = Some sentence ->
  is_null (_cachedTokens this) = false ->
  cache_miss this sentence = false.
Proof.
  intros Hs Ht. unfold cache_miss. rewrite Hs, Ht, sentence_is_same.
  reflexivity.
Qed.

(** While the cache holds the tokens of a sentence, every call for that
    sentence, one after the other and whatever the cursors, is answered
    from those tokens by the containment rule, sends no request, logs
    nothing and leaves the client as it is. *)
Theorem cached_sentence_served_without_requests
    (sentence : string) (toks : list Token) (calls : list call)
    (this : client) :
  _cachedSentence this = Some sentence ->
  _cachedTokens this = tokens_value toks ->
  Forall (fun c => c_sentence c = sentence) calls ->
  runJ calls this
  = (map (fun c =>
            (Return (option_map token_result
                       (first_covering toks (c_cursorIndex c))),
             []))
         calls,
     this).
Proof.
  intros Hs Ht Hcalls.
  induction Hcalls as [|c rest Hc Hrest IH]; [reflexivity|].
  rewrite run_cons, Hc.
  rewrite (getJ_typed_hit this sentence (c_cursorIndex c) (c_net c) toks Hs Ht).
  simpl. rewrite IH. reflexivity.
Qed.

(** On cached tokens whose offsets are integers of magnitude at most
    2^52, where the subtraction of doubles is exact, a result served
    from the cache for an integer cursor spans the cursor:
    [offset <= cursorIndex < offset + length], with a length between 1
    and 2^53. *)
Theorem hit_result_spans_cursor
    (this : client) (sentence : string) (c : Z) (net : fetch_outcome)
    (toks : list Token) (r : result) :
  _cachedSentence this = Some sentence ->
  _cachedTokens this = tokens_value toks ->
  Forall exact_span toks ->
  fst (fst (getJ sentence (Int c) net this)) = Return (Some r) ->
  exists off len : Z,
    r_offset r = VNum (Int off) /\ r_length r = Int len /\
    off <= c < off + len /\ 1 <= len <= 2 ^ 53.
Proof.
  intros Hs Ht Hexact Hr.
  rewrite (getJ_typed_hit this sentence (Int c) net toks Hs Ht) in Hr.
  simpl in Hr.
  destruct (first_covering toks (Int c)) as [t|] eqn:Hfind; [|discriminate].
  injection Hr as <-.
  destruct (first_covering_first toks (Int c) t Hfind)
    as (before & after & _ & Hcovers & _).
  apply covers_tok_spec in Hcovers.
  rewrite Forall_forall in Hexact.
  destruct (Hexact t (first_covering_in toks (Int c) t Hfind))
    as [Hstart Hend].
  exists (t_start t), (t_end t - t_start t). simpl.
  repeat split; lia.
Qed.

Lemma first_covering_NaN (toks : list Token) : first_covering toks NaN = None.
Proof.
  unfold first_covering.
  induction toks as [|t rest IH]; [reflexivity|exact IH].
Qed.

(** A cursor that is NaN lies in no span: served from the cache, the
    call resolves to [null] whatever the tokens. *)
Theorem nan_cursor_hits_nothing
    (this : client) (sentence : string) (net : fetch_outcome)
    (toks : list Token) :
  _cachedSentence this = Some sentence ->
  _cachedTokens this = tokens_value toks ->
  getJ sentence NaN net this = (Return None, this, []).
Proof.
  intros Hs Ht.
  rewrite (getJ_typed_hit this sentence NaN net toks Hs Ht).
  rewrite first_covering_NaN. reflexivity.
Qed.

Lemma scan_stops (before : list Token) (t : Token) (rest : list value)
    (cursorIndex : number) :
  forallb (fun u => negb (covers_tok cursorIndex u)) before = true ->
  covers_tok cursorIndex t = true ->
  scan StringToNumber ArrayToNumber
       (map token_value before ++ token_value t :: rest) cursorIndex
  = Return (token_value t).
Proof.
  intros Hbefore Ht.
  induction before as [|u before IH]; simpl.
  - rewrite covers_token_value, Ht. reflexivity.
  - simpl in Hbefore. apply andb_true_iff in Hbefore as [Hu Hbefore].
    apply negb_true_iff in Hu.
    rewrite covers_token_value, Hu. simpl. now apply IH.
Qed.

(** The loop leaves at the first token that covers the cursor and never
    looks at what follows it: entries after it, whatever they are, do
    not make the call throw nor change its result. *)
Theorem scan_ignores_entries_after_match
    (this : client) (sentence : string) (cursorIndex : number)
    (net : fetch_outcome) (before : list Token) (t : Token)
    (rest : list value) :
  _cachedSentence this = Some sentence ->
  _cachedTokens this = VArr (map token_value before ++ token_value t :: rest) ->
  forallb (fun u => negb (covers_tok cursorIndex u)) before = true ->
  covers_tok cursorIndex t = true ->
  getJ sentence cursorIndex net this
  = (Return (Some (token_result t)), this, []).
Proof.
  intros Hs Ht Hbefore Hcovers.
  rewrite getJ_hit.
  - unfold from_cache, _findTokenAtCursor. rewrite Ht. simpl.
    rewrite (scan_stops before t rest cursorIndex Hbefore Hcovers).
    reflexivity.
  - apply hit_when_cached; [assumption|now rewrite Ht].
Qed.

Lemma scan_chars (str : string) (cursorIndex : number) :
  scan StringToNumber ArrayToNumber (chars str) cursorIndex = Return VNull.
Proof.
  induction str as [|ch str IH]; [reflexivity|exact IH].
Qed.

(** When the cached [tokens] is a string, the loop visits its
    characters, none of which has a [start]: every call for the cached
    sentence resolves to [null] without a request and without throwing. *)
Theorem string_tokens_answer_null
    (this : client) (sentence : string) (cursorIndex : number)
    (net : fetch_outcome) (str : string) :
  _cachedSentence this = Some sentence ->
  _cachedTokens this = VStr str ->
  getJ sentence cursorIndex net this = (Return None, this, []).
Proof.
  intros Hs Ht.
  rewrite getJ_hit.
  - unfold from_cache, _findTokenAtCursor. rewrite Ht. simpl.
    rewrite scan_chars. reflexivity.
  - apply hit_when_cached; [assumption|now rewrite Ht].
Qed.

Lemma not_iterable_hit (this : client) (sentence : string)
    (cursorIndex : number) (net : fetch_outcome) :
  _cachedSentence this = Some sentence ->
  not_iterable (_cachedTokens this) = true ->
  getJ sentence cursorIndex net this = (Throw TypeError, this, []).
Proof.
  intros Hs Ht.
  rewrite getJ_hit.
  - unfold from_cache, _findTokenAtCursor.
    destruct (_cachedTokens this); try discriminate; reflexivity.
  - apply hit_when_cached; [assumption|].
    destruct (_cachedTokens this); try discriminate; reflexivity.
Qed.

Lemma not_iterable_run (sentence : string) (calls : list call)
    (this : client) :
  _cachedSentence this = Some sentence ->
  not_iterable (_cachedTokens this) = true ->
  Forall (fun c => c_sentence c = sentence) calls ->
  runJ calls this = (map (fun _ => (Throw TypeError, [])) calls, this).
Proof.
  intros Hs Ht Hcalls.
  induction Hcalls as [|c rest Hc Hrest IH]; [reflexivity|].
  rewrite run_cons, Hc.
  rewrite (not_iterable_hit this sentence (c_cursorIndex c) (c_net c) Hs Ht).
  simpl. rewrite IH. reflexivity.
Qed.

(** When the cached [tokens] is neither [null] nor iterable (it is
    [undefined], a boolean, a number or an object), every call for the
    cached sentence rejects with a TypeError, sends no request and
    changes nothing: the client does not recover until a call for
    another sentence replaces the cache. *)
Theorem non_iterable_cache_rejects_every_call
    (sentence : string) (calls : list call) (this : client) :
  _cachedSentence this = Some sentence ->
  not_iterable (_cachedTokens this) = true ->
  Forall (fun c => c_sentence c = sentence) calls ->
  runJ calls this = (map (fun _ => (Throw TypeError, [])) calls, this).
Proof.
  intros Hs Ht Hcalls.
  induction Hcalls as [|c rest Hc Hrest IH]; [reflexivity|].
  rewrite run_cons, Hc.
  rewrite (not_iterable_hit this sentence (c_cursorIndex c) (c_net c) Hs Ht).
  simpl. rewrite IH. reflexivity.
Qed.

(** ** The network path once more *)

(** After a response of the wire contract the next call for the same
    sentence is answered from [tokens] alone: [current] decides the
    first answer only. *)
Theorem next_call_scans_tokens
    (this : client) (sentence : string) (c1 c2 : number)
    (r : response) (toks : list Token) (cur : option Token)
    (net2 : fetch_outcome) :
  cache_miss this sentence = true ->
  ok r = true ->
  json r = JsonResolves (response_data toks cur) ->
  runJ [mkCall sentence c1 (FetchResolves r); mkCall sentence c2 net2] this
  = ([(Return (option_map token_result cur),
       request_events this sentence c1 ++ [EvClearTimeout]);
      (Return (option_map token_result (first_covering toks c2)), [])],
     with_cache this sentence (tokens_value toks)).
Proof.
  intros Hmiss Hok Hjson.
  rewrite run_cons. cbn [c_sentence c_cursorIndex c_net].
  rewrite (getJ_body _ _ this sentence c1 r _ Hmiss Hok Hjson).
  rewrite after_cache_write_contract. simpl get. cbn iota.
  cbn [fst snd]. rewrite run_cons. cbn [c_sentence c_cursorIndex c_net].
  rewrite (getJ_typed_hit (with_cache this sentence (tokens_value toks))
             sentence c2 net2 toks eq_refl eq_refl).
  reflexivity.
Qed.

(** When [current] is an object that has neither [start] nor [end], the
    call does not fail: it caches the tokens and resolves to a result
    whose [length] is NaN and whose [offset] is [undefined], without
    logging. *)
Theorem current_without_span_gives_nan
    (this : client) (sentence : string) (cursorIndex : number)
    (r : response) (tokens : value) (props : list (string * value)) :
  cache_miss this sentence = true ->
  ok r = true ->
  json r = JsonResolves (VObj [("tokens", tokens); ("current", VObj props)]) ->
  lookup "start" props = None ->
  lookup "end" props = None ->
  getJ sentence cursorIndex (FetchResolves r) this
  = (Return (Some (mkResult (prop_or_undefined "jishokei" props) NaN VUndefined)),
     with_cache this sentence tokens,
     request_events this sentence cursorIndex ++ [EvClearTimeout]).
Proof.
  intros Hmiss Hok Hjson Hstart Hend.
  rewrite (getJ_body _ _ this sentence cursorIndex r _ Hmiss Hok Hjson).
  unfold after_cache_write, make_result, prop_or_undefined. simpl.
  rewrite Hstart, Hend. simpl.
  destruct (lookup "jishokei" props); reflexivity.
Qed.

(** When the parsed body has [tokens] but no [current], the cache is
    replaced first and the call fails after: it logs a TypeError and
    resolves to [null], and the tokens stay cached. *)
Theorem missing_current_caches_and_logs
    (this : client) (sentence : string) (cursorIndex : number)
    (r : response) (props : list (string * value)) (tokens : value) :
  cache_miss this sentence = true ->
  ok r = true ->
  json r = JsonResolves (VObj props) ->
  lookup "tokens" props = Some tokens ->
  lookup "current" props = None ->
  getJ sentence cursorIndex (FetchResolves r) this
  = (Return None,
     with_cache this sentence tokens,
     request_events this sentence cursorIndex
     ++ [EvClearTimeout; EvLogError TypeError]).
Proof.
  intros Hmiss Hok Hjson Htokens Hcurrent.
  rewrite (getJ_body _ _ this sentence cursorIndex r _ Hmiss Hok Hjson).
  unfold after_cache_write, make_result. simpl.
  rewrite Htokens, Hcurrent. reflexivity.
Qed.

(** A 2xx body that parses to a boolean, a number, a string or an array
    has no [tokens] and no [current]: the call stores [undefined] as the
    cached tokens, logs a TypeError and resolves to [null]; from then
    on every call for that sentence rejects with a TypeError without a
    request. *)
Theorem non_object_body_poisons_cache
    (this : client) (sentence : string) (cursorIndex : number)
    (r : response) (data : value) (calls : list call) :
  cache_miss this sentence = true ->
  ok r = true ->
  json r = JsonResolves data ->
  non_object data = true ->
  Forall (fun c => c_sentence c = sentence) calls ->
  runJ (mkCall sentence cursorIndex (FetchResolves r) :: calls) this
  = ((Return None,
      request_events this sentence cursorIndex
      ++ [EvClearTimeout; EvLogError TypeError])
     :: map (fun _ => (Throw TypeError, [])) calls,
     with_cache this sentence VUndefined).
Proof.
  intros Hmiss Hok Hjson Hdata Hcalls.
  rewrite run_cons. cbn [c_sentence c_cursorIndex c_net].
  rewrite (getJ_body _ _ this sentence cursorIndex r _ Hmiss Hok Hjson).
  assert (Hstep :
            match get data "tokens" with
            | Throw e =>
                (Return None, with_sentence this sentence,
                 request_events this sentence cursorIndex
                 ++ [EvClearTimeout; catch_log e])
            | Return tokens =>
                match after_cache_write StringToNumber ArrayToNumber data with
                | Return x =>
                    (Return x, with_cache this sentence tokens,
                     request_events this sentence cursorIndex ++ [EvClearTimeout])
                | Throw e =>
                    (Return None, with_cache this sentence tokens,
                     request_events this sentence cursorIndex
                     ++ [EvClearTimeout; catch_log e])
                end
            end
            = (Return None, with_cache this sentence VUndefined,
               request_events this sentence cursorIndex
               ++ [EvClearTimeout; EvLogError TypeError])).
  { destruct data; try discriminate; reflexivity. }
  rewrite Hstep. cbn [fst snd].
  rewrite (not_iterable_run sentence calls
             (with_cache this sentence VUndefined) eq_refl eq_refl Hcalls).
  reflexivity.
Qed.

End Further.

(** * The call against the clock *)

Section Timed.

Variable StringToNumber : string -> number.
Variable ArrayToNumber : list value -> completion number.

Local Abbreviation getJ := (getJishokei StringToNumber ArrayToNumber).
Local Abbreviation getJ_timed := (getJishokei_timed StringToNumber ArrayToNumber).

(** A promise that settles settles as the method does on what the
    request yielded. *)
Lemma timed_agrees (this : client) (sentence : string) (cursorIndex : number)
    (svc : service) (ms : Z) (aborted : bool)
    (res : completion (option result)) (this' : client) (tr : list event) :
  getJ_timed sentence cursorIndex svc this = SettlesAt ms aborted res this' tr ->
  exists net, getJ sentence cursorIndex net this = (res, this', tr).
Proof.
  unfold getJishokei_timed, settles.
  destruct (cache_miss this sentence).
  - destruct (fetch_settles (_timeout this) svc) as [[t [e|r body_at]]|].
    + destruct (getJ sentence cursorIndex (FetchRejects e) this)
        as [[res0 this0] tr0] eqn:Hcall.
      intros [= _ _ <- <- <-]. eauto.
    + destruct (ok r).
      * destruct body_at as [u|]; [|discriminate].
        destruct (getJ sentence cursorIndex (FetchResolves r) this)
          as [[res0 this0] tr0] eqn:Hcall.
        intros [= _ _ <- <- <-]. eauto.
      * destruct (getJ sentence cursorIndex (FetchResolves r) this)
          as [[res0 this0] tr0] eqn:Hcall.
        intros [= _ _ <- <- <-]. eauto.
    + destruct (getJ sentence cursorIndex (FetchRejects AbortError) this)
        as [[res0 this0] tr0] eqn:Hcall.
      intros [= _ _ <- <- <-]. eauto.
  - destruct (getJ sentence cursorIndex (FetchRejects AbortError) this)
      as [[res0 this0] tr0] eqn:Hcall.
    intros [= _ _ <- <- <-]. eauto.
Qed.

(** When the timer is due before [fetch] has settled, the request is
    aborted, and the call settles then: it logs the line kept for the
    timeout, resolves to [null] and leaves every field as it was. *)
Theorem timer_first_aborts (this : client) (sentence : string)
    (cursorIndex : number) (svc : service) :
  cache_miss this sentence = true ->
  timer_fires (_timeout this) svc = true ->
  getJ_timed sentence cursorIndex svc this
  = SettlesAt (_timeout this) true (Return None) this
      (request_events this sentence cursorIndex ++ [EvLogErrorTimedOut]).
Proof.
  intros Hmiss Hfires.
  unfold getJishokei_timed, settles, timer_fires in *. rewrite Hmiss.
  destruct (fetch_settles (_timeout this) svc); [discriminate|].
  rewrite getJ_fetch_rejects by assumption. reflexivity.
Qed.

(** When a 2xx response of the wire contract is there before the timer
    is due and its body is complete at some time, the timer is cleared,
    the request is not aborted, and the call resolves to the mapped
    [current] once the body is complete, be that before or after the
    timeout. *)
Theorem response_first_returns_current (this : client) (sentence : string)
    (cursorIndex : number) (svc : service) (t u : Z) (r : response)
    (toks : list Token) (cur : option Token) :
  cache_miss this sentence = true ->
  fetch_at svc = At t ->
  t < _timeout this ->
  fetch_with svc = Responds r (At u) ->
  ok r = true ->
  json r = JsonResolves (response_data toks cur) ->
  getJ_timed sentence cursorIndex svc this
  = SettlesAt (Z.max t u) false (Return (option_map token_result cur))
      (with_cache this sentence (tokens_value toks))
      (request_events this sentence cursorIndex ++ [EvClearTimeout]).
Proof.
  intros Hmiss Hat Hlt Hwith Hok Hjson.
  unfold getJishokei_timed, settles, fetch_settles. rewrite Hmiss, Hat.
  assert (Hno : (_timeout this <? t) || ((_timeout this =? t) && timer_wins_tie svc)
                = false).
  { apply orb_false_iff. split.
    - apply Z.ltb_ge. lia.
    - apply andb_false_iff. left. apply Z.eqb_neq. lia. }
  rewrite Hno, Hwith, Hok.
  rewrite (getJ_body _ _ this sentence cursorIndex r _ Hmiss Hok Hjson).
  rewrite after_cache_write_contract. reflexivity.
Qed.


(** C6. A new client asks for a sentence; the service answers 200 after
    10 ms, well before the 5000 ms of the timeout.  Line 72 clears the
    timer as soon as [fetch] resolves, so line 80 waits for the body
    unbounded: when the body never completes the call never settles,
    the request is not aborted and nothing is logged; when the body is
    complete after 60000 ms the call settles then, with the mapped
    token. *)
Theorem stalled_body_outlives_timeout :
  getJ_timed "食べた" (Int 0) (tabeta_service 10 Never) constructor
  = NeverSettles constructor
      [EvSetTimeout 5000; EvFetch "http://127.0.0.1:8000" "食べた" (Int 0);
       EvClearTimeout] /\
  getJ_timed "食べた" (Int 0) (tabeta_service 10 (At 60000)) constructor
  = SettlesAt 60000 false (Return (Some (token_result tabeta)))
      (with_cache constructor "食べた" (tokens_value [tabeta]))
      [EvSetTimeout 5000; EvFetch "http://127.0.0.1:8000" "食べた" (Int 0);
       EvClearTimeout].
Proof. split; reflexivity. Qed.

End Timed.

(** * Concrete runs *)

(** The end-to-end example: a new client, the sentence of one token, the
    cursor on its first character; then the cursor on its second. *)
Example end_to_end :
  run StringToNumber0 ArrayToNumber0
      [mkCall "食べた" (Int 0) (ok_body (response_data [tabeta] (Some tabeta)));
       mkCall "食べた" (Int 1) (FetchRejects TypeError)]
      constructor
  = ([(Return (Some (token_result tabeta)),
       [EvSetTimeout 5000; EvFetch "http://127.0.0.1:8000" "食べた" (Int 0);
        EvClearTimeout]);
      (Return (Some (token_result tabeta)), [])],
     with_cache constructor "食べた" (tokens_value [tabeta])).
Proof. reflexivity. Qed.

Lemma cache_hit_first_covering_token_witness :
  _cachedSentence (with_cache constructor "食べた" (tokens_value [tabeta]))
  = Some "食べた" /\
  _cachedTokens (with_cache constructor "食べた" (tokens_value [tabeta]))
  = tokens_value [tabeta] /\
  getJishokei StringToNumber0 ArrayToNumber0 "食べた" (Int 1)
    (FetchRejects TypeError)
    (with_cache constructor "食べた" (tokens_value [tabeta]))
  = (Return (option_map token_result (first_covering [tabeta] (Int 1))),
     with_cache constructor "食べた" (tokens_value [tabeta]), []).
Proof.
  split; [reflexivity|]. split; [reflexivity|].
  apply (cache_hit_first_covering_token StringToNumber0 ArrayToNumber0
           (with_cache constructor "食べた" (tokens_value [tabeta]))
           "食べた" (Int 1) (FetchRejects TypeError) [tabeta]);
    reflexivity.
Defined.

Lemma success_replaces_cache_witness :
  cache_miss constructor "食べた" = true /\
  ok (mkResponse 200 (JsonResolves (response_data [tabeta] None))) = true /\
  getJishokei StringToNumber0 ArrayToNumber0 "食べた" (Int 5)
    (ok_body (response_data [tabeta] None)) constructor
  = (Return None,
     mkClient "http://127.0.0.1:8000" 5000 (Some "食べた")
       (tokens_value [tabeta]),
     [EvSetTimeout 5000; EvFetch "http://127.0.0.1:8000" "食べた" (Int 5);
      EvClearTimeout]).
Proof.
  split; [reflexivity|]. split; [reflexivity|].
  apply (success_replaces_cache StringToNumber0 ArrayToNumber0 constructor
           "食べた" (Int 5)
           (mkResponse 200 (JsonResolves (response_data [tabeta] None)))
           [tabeta] None);
    reflexivity.
Defined.

Lemma current_equals_rescan_witness :
  ok (mkResponse 200
        (JsonResolves
           (response_data [tabeta] (first_covering [tabeta] (Int 2)))))
  = true /\
  getJishokei StringToNumber0 ArrayToNumber0 "食べた" (Int 2)
    (ok_body (response_data [tabeta] (first_covering [tabeta] (Int 2))))
    constructor
  = getJishokei_rescan StringToNumber0 ArrayToNumber0 "食べた" (Int 2)
      (ok_body (response_data [tabeta] (first_covering [tabeta] (Int 2))))
      constructor.
Proof.
  split; [reflexivity|].
  apply (current_equals_rescan StringToNumber0 ArrayToNumber0 constructor
           "食べた" (Int 2)
           (mkResponse 200
              (JsonResolves
                 (response_data [tabeta] (first_covering [tabeta] (Int 2)))))
           [tabeta]);
    reflexivity.
Defined.

(** C8, as stated, fails.  The service answers a new client with the
    tokens [[early]] and [backwards] as [current]: the call resolves to
    a result of length -1 and offset -2; the next call is served from
    the cache and resolves to a result of offset -2. *)
Lemma negative_length_and_offset :
  exists r1 r2 : result,
    fst (run StringToNumber0 ArrayToNumber0
           [mkCall "x" (Int 0) (ok_body (response_data [early] (Some backwards)));
            mkCall "x" (Int 0) (FetchRejects TypeError)]
           constructor)
    = [(Return (Some r1),
        [EvSetTimeout 5000; EvFetch "http://127.0.0.1:8000" "x" (Int 0);
         EvClearTimeout]);
       (Return (Some r2), [])] /\
    r_length r1 = Int (-1) /\ r_offset r1 = VNum (Int (-2)) /\
    r_offset r2 = VNum (Int (-2)) /\
    ~ result_nonneg r1 /\ ~ result_nonneg r2.
Proof.
  exists (token_result backwards), (token_result early).
  repeat split.
  - intros (len & off & Hlen & _ & Hpos & _).
    simpl in Hlen. injection Hlen as <-. lia.
  - intros (len & off & _ & Hoff & _ & Hpos).
    simpl in Hoff. injection Hoff as <-. lia.
Qed.

Lemma results_nonneg_for_valid_spans_witness :
  Forall (fun c => well_behaved span_ok (c_net c))
    [mkCall "食べた" (Int 0) (ok_body (response_data [tabeta] (Some tabeta)));
     mkCall "食べた" (Int 1) (FetchRejects TypeError)] /\
  Forall (fun out : outcome =>
            forall r, fst out = Return (Some r) -> result_nonneg r)
    (fst (run StringToNumber0 ArrayToNumber0
            [mkCall "食べた" (Int 0)
               (ok_body (response_data [tabeta] (Some tabeta)));
             mkCall "食べた" (Int 1) (FetchRejects TypeError)]
            constructor)).
Proof.
  assert (Hspan : span_ok tabeta) by (unfold span_ok; simpl; lia).
  assert (Hcalls :
            Forall (fun c => well_behaved span_ok (c_net c))
              [mkCall "食べた" (Int 0)
                 (ok_body (response_data [tabeta] (Some tabeta)));
               mkCall "食べた" (Int 1) (FetchRejects TypeError)]).
  { constructor; [|constructor; [exact I|constructor]].
    intros _. exists [tabeta], (Some tabeta).
    split; [reflexivity|]. split; [constructor; [exact Hspan|constructor]|].
    intros t [= <-]. exact Hspan. }
  split; [exact Hcalls|].
  apply (results_nonneg_for_valid_spans StringToNumber0 ArrayToNumber0 _ Hcalls).
Defined.

Lemma empty_tokens_cache_hits_witness :
  cache_miss constructor "a" = true /\
  ok (mkResponse 200
        (JsonResolves (VObj [("tokens", VArr []); ("current", VNull)])))
  = true /\
  get (VObj [("tokens", VArr []); ("current", VNull)]) "tokens"
  = Return (VArr []) /\
  Forall (fun c => c_sentence c = "a")
    [mkCall "a" (Int 0) (FetchRejects TypeError);
     mkCall "a" (Int 7) (ok_body VNull)] /\
  (snd (fst (getJishokei StringToNumber0 ArrayToNumber0 "a" (Int 0)
               (ok_body (VObj [("tokens", VArr []); ("current", VNull)]))
               constructor))
   = with_cache constructor "a" (VArr []) /\
   snd (run StringToNumber0 ArrayToNumber0
          [mkCall "a" (Int 0) (FetchRejects TypeError);
           mkCall "a" (Int 7) (ok_body VNull)]
          (with_cache constructor "a" (VArr [])))
   = with_cache constructor "a" (VArr []) /\
   Forall (fun out : outcome => out = (Return None, []))
     (fst (run StringToNumber0 ArrayToNumber0
             [mkCall "a" (Int 0) (FetchRejects TypeError);
              mkCall "a" (Int 7) (ok_body VNull)]
             (with_cache constructor "a" (VArr []))))).
Proof.
  split; [reflexivity|]. split; [reflexivity|]. split; [reflexivity|].
  split; [repeat constructor|].
  apply (empty_tokens_cache_hits StringToNumber0 ArrayToNumber0 constructor
           "a" (Int 0)
           (mkResponse 200
              (JsonResolves (VObj [("tokens", VArr []); ("current", VNull)])))
           (VObj [("tokens", VArr []); ("current", VNull)])
           [mkCall "a" (Int 0) (FetchRejects TypeError);
            mkCall "a" (Int 7) (ok_body VNull)]);
    try reflexivity.
  repeat constructor.
Defined.

(** C5, as stated, fails.  A new client is answered 200 with the body
    [{tokens: null, current: null}]: the call resolves to [null] on the
    success path, and leaves [_cachedSentence] set and [_cachedTokens]
    [null]. *)
Lemma null_tokens_break_consistency :
  cache_consistent constructor = true /\
  getJishokei StringToNumber0 ArrayToNumber0 "a" (Int 0)
    (ok_body (VObj [("tokens", VNull); ("current", VNull)])) constructor
  = (Return None,
     mkClient "http://127.0.0.1:8000" 5000 (Some "a") VNull,
     [EvSetTimeout 5000; EvFetch "http://127.0.0.1:8000" "a" (Int 0);
      EvClearTimeout]) /\
  cache_consistent (mkClient "http://127.0.0.1:8000" 5000 (Some "a") VNull)
  = false.
Proof. repeat split. Qed.

Lemma cache_consistent_along_runs_witness :
  cache_consistent constructor = true /\
  Forall (fun c => tokens_is_array (c_net c))
    [mkCall "食べた" (Int 0) (ok_body (response_data [tabeta] None));
     mkCall "b" (Int 1) (FetchRejects AbortError)] /\
  (cache_consistent constructor = true /\
   cache_consistent
     (snd (run StringToNumber0 ArrayToNumber0
             [mkCall "食べた" (Int 0) (ok_body (response_data [tabeta] None));
              mkCall "b" (Int 1) (FetchRejects AbortError)]
             constructor))
   = true).
Proof.
  assert (Hcalls :
            Forall (fun c => tokens_is_array (c_net c))
              [mkCall "食べた" (Int 0) (ok_body (response_data [tabeta] None));
               mkCall "b" (Int 1) (FetchRejects AbortError)]).
  { constructor; [|constructor; [exact I|constructor]].
    intros _. exists [token_value tabeta]. reflexivity. }
  split; [reflexivity|]. split; [exact Hcalls|].
  apply (cache_consistent_along_runs StringToNumber0 ArrayToNumber0
           constructor _ eq_refl Hcalls).
Defined.

(** C9, as stated, fails.  The cache is populated with the sentence
    [a]; a call for [b] answered 200 with the body
    [{tokens: null, current: null}] resolves to [null] without logging
    and stores [null] in [_cachedTokens]. *)
Lemma null_tokens_unpopulate_cache :
  cache_populated (with_cache constructor "a" (tokens_value [tabeta])) = true /\
  getJishokei StringToNumber0 ArrayToNumber0 "b" (Int 0)
    (ok_body (VObj [("tokens", VNull); ("current", VNull)]))
    (with_cache constructor "a" (tokens_value [tabeta]))
  = (Return None,
     with_cache constructor "b" VNull,
     [EvSetTimeout 5000; EvFetch "http://127.0.0.1:8000" "b" (Int 0);
      EvClearTimeout]) /\
  _cachedTokens (with_cache constructor "b" VNull) = VNull /\
  cache_populated (with_cache constructor "b" VNull) = false.
Proof. repeat split. Qed.

Lemma populated_cache_stays_populated_witness :
  cache_populated (with_cache constructor "a" (tokens_value [tabeta])) = true /\
  tokens_is_array (ok_body (response_data [] None)) /\
  (cache_populated
     (snd (fst (getJishokei StringToNumber0 ArrayToNumber0 "b" (Int 0)
                  (ok_body (response_data [] None))
                  (with_cache constructor "a" (tokens_value [tabeta])))))
   = true /\
   (snd (fst (getJishokei StringToNumber0 ArrayToNumber0 "b" (Int 0)
                (ok_body (response_data [] None))
                (with_cache constructor "a" (tokens_value [tabeta]))))
    = with_cache constructor "a" (tokens_value [tabeta]) \/
    exists r data elems,
      ok_body (response_data [] None) = FetchResolves r /\ ok r = true /\
      json r = JsonResolves data /\
      get data "tokens" = Return (VArr elems) /\
      snd (fst (getJishokei StringToNumber0 ArrayToNumber0 "b" (Int 0)
                  (ok_body (response_data [] None))
                  (with_cache constructor "a" (tokens_value [tabeta]))))
      = with_cache (with_cache constructor "a" (tokens_value [tabeta])) "b"
          (VArr elems))).
Proof.
  assert (Hnet : tokens_is_array (ok_body (response_data [] None))).
  { intros _. exists []. reflexivity. }
  split; [reflexivity|]. split; [exact Hnet|].
  apply (populated_cache_stays_populated StringToNumber0 ArrayToNumber0
           (with_cache constructor "a" (tokens_value [tabeta]))
           "b" (Int 0) (ok_body (response_data [] None)) eq_refl Hnet).
Defined.

(** * Concrete runs of the further properties *)

Lemma other_sentence_sends_one_request_witness :
  (_cachedSentence cached_tabeta <> Some "b" \/
   _cachedTokens cached_tabeta = VNull) /\
  filter is_fetch
    (snd (getJishokei StringToNumber0 ArrayToNumber0 "b" (Int 4)
            (FetchRejects TypeError) cached_tabeta))
  = [EvFetch (_apiUrl cached_tabeta) "b" (Int 4)].
Proof.
  assert (H : _cachedSentence cached_tabeta <> Some "b" \/
              _cachedTokens cached_tabeta = VNull)
    by (left; discriminate).
  split; [exact H|].
  apply (other_sentence_sends_one_request StringToNumber0 ArrayToNumber0
           cached_tabeta "b" (Int 4) (FetchRejects TypeError) H).
Defined.

Lemma timer_cleared_iff_fetch_resolves_witness :
  cache_miss constructor "a" = true /\
  (In EvClearTimeout
     (snd (getJishokei StringToNumber0 ArrayToNumber0 "a" (Int 0)
             (FetchRejects AbortError) constructor)) <->
   exists r, FetchRejects AbortError = FetchResolves r).
Proof.
  split; [reflexivity|].
  apply (timer_cleared_iff_fetch_resolves StringToNumber0 ArrayToNumber0
           constructor "a" (Int 0) (FetchRejects AbortError) eq_refl).
Defined.

Lemma non_2xx_ignores_body_witness :
  ok (mkResponse 404 (JsonResolves VNull)) = false /\
  getJishokei StringToNumber0 ArrayToNumber0 "a" (Int 0)
    (FetchResolves (mkResponse 404 (JsonResolves VNull))) constructor
  = getJishokei StringToNumber0 ArrayToNumber0 "a" (Int 0)
      (FetchResolves (mkResponse 404 (JsonRejects SyntaxError))) constructor.
Proof.
  split; [reflexivity|].
  apply (non_2xx_ignores_body StringToNumber0 ArrayToNumber0 constructor
           "a" (Int 0) 404 (JsonResolves VNull) (JsonRejects SyntaxError)
           eq_refl).
Defined.

Lemma new_sentence_evicts_old_witness :
  "食べた" <> "b" /\
  cache_miss cached_tabeta "b" = true /\
  ok (mkResponse 200 (JsonResolves (response_data [] None))) = true /\
  cache_miss
    (snd (fst (getJishokei StringToNumber0 ArrayToNumber0 "b" (Int 0)
                 (ok_body (response_data [] None)) cached_tabeta)))
    "食べた"
  = true.
Proof.
  assert (H : "食べた" <> "b") by discriminate.
  split; [exact H|]. split; [reflexivity|]. split; [reflexivity|].
  apply (new_sentence_evicts_old StringToNumber0 ArrayToNumber0 cached_tabeta
           "食べた" "b" (Int 0)
           (mkResponse 200 (JsonResolves (response_data [] None)))
           (response_data [] None) H eq_refl eq_refl eq_refl).
Defined.

Lemma cached_sentence_served_without_requests_witness :
  _cachedSentence cached_tabeta = Some "食べた" /\
  _cachedTokens cached_tabeta = tokens_value [tabeta] /\
  Forall (fun c => c_sentence c = "食べた")
    [mkCall "食べた" (Int 2) (FetchRejects TypeError);
     mkCall "食べた" (Int 3) (ok_body VNull)] /\
  run StringToNumber0 ArrayToNumber0
    [mkCall "食べた" (Int 2) (FetchRejects TypeError);
     mkCall "食べた" (Int 3) (ok_body VNull)]
    cached_tabeta
  = (map (fun c =>
            (Return (option_map token_result
                       (first_covering [tabeta] (c_cursorIndex c))),
             []))
       [mkCall "食べた" (Int 2) (FetchRejects TypeError);
        mkCall "食べた" (Int 3) (ok_body VNull)],
     cached_tabeta).
Proof.
  assert (H : Forall (fun c => c_sentence c = "食べた")
                [mkCall "食べた" (Int 2) (FetchRejects TypeError);
                 mkCall "食べた" (Int 3) (ok_body VNull)])
    by (repeat constructor).
  split; [reflexivity|]. split; [reflexivity|]. split; [exact H|].
  apply (cached_sentence_served_without_requests StringToNumber0 ArrayToNumber0
           "食べた" [tabeta] _ cached_tabeta eq_refl eq_refl H).
Defined.

Lemma hit_result_spans_cursor_witness :
  _cachedSentence cached_tabeta = Some "食べた" /\
  _cachedTokens cached_tabeta = tokens_value [tabeta] /\
  Forall exact_span [tabeta] /\
  fst (fst (getJishokei StringToNumber0 ArrayToNumber0 "食べた" (Int 2)
              (FetchRejects TypeError) cached_tabeta))
  = Return (Some (token_result tabeta)) /\
  exists off len : Z,
    r_offset (token_result tabeta) = VNum (Int off) /\
    r_length (token_result tabeta) = Int len /\
    off <= 2 < off + len /\ 1 <= len <= 2 ^ 53.
Proof.
  assert (Hexact : Forall exact_span [tabeta]).
  { constructor; [|constructor]. unfold exact_span. simpl. lia. }
  split; [reflexivity|]. split; [reflexivity|]. split; [exact Hexact|].
  split; [reflexivity|].
  apply (hit_result_spans_cursor StringToNumber0 ArrayToNumber0 cached_tabeta
           "食べた" 2 (FetchRejects TypeError) [tabeta] (token_result tabeta)
           eq_refl eq_refl Hexact eq_refl).
Defined.

Lemma nan_cursor_hits_nothing_witness :
  _cachedSentence cached_tabeta = Some "食べた" /\
  _cachedTokens cached_tabeta = tokens_value [tabeta] /\
  getJishokei StringToNumber0 ArrayToNumber0 "食べた" NaN
    (FetchRejects TypeError) cached_tabeta
  = (Return None, cached_tabeta, []).
Proof.
  split; [reflexivity|]. split; [reflexivity|].
  apply (nan_cursor_hits_nothing StringToNumber0 ArrayToNumber0 cached_tabeta
           "食べた" (FetchRejects TypeError) [tabeta] eq_refl eq_refl).
Defined.

Lemma scan_ignores_entries_after_match_witness :
  _cachedSentence
    (with_cache constructor "x"
       (VArr (map token_value [backwards] ++ token_value early :: [VNull])))
  = Some "x" /\
  forallb (fun u => negb (covers_tok (Int 0) u)) [backwards] = true /\
  covers_tok (Int 0) early = true /\
  getJishokei StringToNumber0 ArrayToNumber0 "x" (Int 0)
    (FetchRejects TypeError)
    (with_cache constructor "x"
       (VArr (map token_value [backwards] ++ token_value early :: [VNull])))
  = (Return (Some (token_result early)),
     with_cache constructor "x"
       (VArr (map token_value [backwards] ++ token_value early :: [VNull])),
     []).
Proof.
  split; [reflexivity|]. split; [reflexivity|]. split; [reflexivity|].
  apply (scan_ignores_entries_after_match StringToNumber0 ArrayToNumber0
           (with_cache constructor "x"
              (VArr (map token_value [backwards] ++ token_value early :: [VNull])))
           "x" (Int 0) (FetchRejects TypeError) [backwards] early [VNull]
           eq_refl eq_refl eq_refl eq_refl).
Defined.

Lemma string_tokens_answer_null_witness :
  _cachedSentence (with_cache constructor "a" (VStr "abc")) = Some "a" /\
  _cachedTokens (with_cache constructor "a" (VStr "abc")) = VStr "abc" /\
  getJishokei StringToNumber0 ArrayToNumber0 "a" (Int 1)
    (FetchRejects TypeError) (with_cache constructor "a" (VStr "abc"))
  = (Return None, with_cache constructor "a" (VStr "abc"), []).
Proof.
  split; [reflexivity|]. split; [reflexivity|].
  apply (string_tokens_answer_null StringToNumber0 ArrayToNumber0
           (with_cache constructor "a" (VStr "abc")) "a" (Int 1)
           (FetchRejects TypeError) "abc" eq_refl eq_refl).
Defined.

Lemma non_iterable_cache_rejects_every_call_witness :
  _cachedSentence (with_cache constructor "a" (VNum (Int 5))) = Some "a" /\
  not_iterable (_cachedTokens (with_cache constructor "a" (VNum (Int 5))))
  = true /\
  Forall (fun c => c_sentence c = "a")
    [mkCall "a" (Int 0) (FetchRejects TypeError);
     mkCall "a" (Int 1) (ok_body (response_data [tabeta] None))] /\
  run StringToNumber0 ArrayToNumber0
    [mkCall "a" (Int 0) (FetchRejects TypeError);
     mkCall "a" (Int 1) (ok_body (response_data [tabeta] None))]
    (with_cache constructor "a" (VNum (Int 5)))
  = (map (fun _ => (Throw TypeError, []))
       [mkCall "a" (Int 0) (FetchRejects TypeError);
        mkCall "a" (Int 1) (ok_body (response_data [tabeta] None))],
     with_cache constructor "a" (VNum (Int 5))).
Proof.
  assert (H : Forall (fun c => c_sentence c = "a")
                [mkCall "a" (Int 0) (FetchRejects TypeError);
                 mkCall "a" (Int 1) (ok_body (response_data [tabeta] None))])
    by (repeat constructor).
  split; [reflexivity|]. split; [reflexivity|]. split; [exact H|].
  apply (non_iterable_cache_rejects_every_call StringToNumber0 ArrayToNumber0
           "a" _ (with_cache constructor "a" (VNum (Int 5)))
           eq_refl eq_refl H).
Defined.

Lemma next_call_scans_tokens_witness :
  cache_miss constructor "食べた" = true /\
  ok (mkResponse 200 (JsonResolves (response_data [tabeta] None))) = true /\
  run StringToNumber0 ArrayToNumber0
    [mkCall "食べた" (Int 1) (ok_body (response_data [tabeta] None));
     mkCall "食べた" (Int 1) (FetchRejects TypeError)]
    constructor
  = ([(Return (option_map token_result None),
       request_events constructor "食べた" (Int 1) ++ [EvClearTimeout]);
      (Return (option_map token_result (first_covering [tabeta] (Int 1))), [])],
     with_cache constructor "食べた" (tokens_value [tabeta])).
Proof.
  split; [reflexivity|]. split; [reflexivity|].
  apply (next_call_scans_tokens StringToNumber0 ArrayToNumber0 constructor
           "食べた" (Int 1) (Int 1)
           (mkResponse 200 (JsonResolves (response_data [tabeta] None)))
           [tabeta] None (FetchRejects TypeError)
           eq_refl eq_refl eq_refl).
Defined.

Lemma current_without_span_gives_nan_witness :
  cache_miss constructor "a" = true /\
  lookup "start" [("jishokei", VStr "x")] = None /\
  lookup "end" [("jishokei", VStr "x")] = None /\
  getJishokei StringToNumber0 ArrayToNumber0 "a" (Int 0)
    (ok_body (VObj [("tokens", VArr []);
                    ("current", VObj [("jishokei", VStr "x")])]))
    constructor
  = (Return (Some (mkResult
                     (prop_or_undefined "jishokei" [("jishokei", VStr "x")])
                     NaN VUndefined)),
     with_cache constructor "a" (VArr []),
     request_events constructor "a" (Int 0) ++ [EvClearTimeout]).
Proof.
  split; [reflexivity|]. split; [reflexivity|]. split; [reflexivity|].
  apply (current_without_span_gives_nan StringToNumber0 ArrayToNumber0
           constructor "a" (Int 0)
           (mkResponse 200
              (JsonResolves
                 (VObj [("tokens", VArr []);
                        ("current", VObj [("jishokei", VStr "x")])])))
           (VArr []) [("jishokei", VStr "x")]
           eq_refl eq_refl eq_refl eq_refl eq_refl).
Defined.

Lemma missing_current_caches_and_logs_witness :
  cache_miss constructor "a" = true /\
  lookup "tokens" [("tokens", tokens_value [tabeta])]
  = Some (tokens_value [tabeta]) /\
  lookup "current" [("tokens", tokens_value [tabeta])] = None /\
  getJishokei StringToNumber0 ArrayToNumber0 "a" (Int 0)
    (ok_body (VObj [("tokens", tokens_value [tabeta])])) constructor
  = (Return None,
     with_cache constructor "a" (tokens_value [tabeta]),
     request_events constructor "a" (Int 0)
     ++ [EvClearTimeout; EvLogError TypeError]).
Proof.
  split; [reflexivity|]. split; [reflexivity|]. split; [reflexivity|].
  apply (missing_current_caches_and_logs StringToNumber0 ArrayToNumber0
           constructor "a" (Int 0)
           (mkResponse 200 (JsonResolves (VObj [("tokens", tokens_value [tabeta])])))
           [("tokens", tokens_value [tabeta])] (tokens_value [tabeta])
           eq_refl eq_refl eq_refl eq_refl eq_refl).
Defined.

Lemma non_object_body_poisons_cache_witness :
  cache_miss constructor "a" = true /\
  non_object (VArr []) = true /\
  Forall (fun c => c_sentence c = "a")
    [mkCall "a" (Int 3) (FetchRejects TypeError)] /\
  run StringToNumber0 ArrayToNumber0
    (mkCall "a" (Int 0) (ok_body (VArr []))
     :: [mkCall "a" (Int 3) (FetchRejects TypeError)])
    constructor
  = ((Return None,
      request_events constructor "a" (Int 0)
      ++ [EvClearTimeout; EvLogError TypeError])
     :: map (fun _ => (Throw TypeError, []))
          [mkCall "a" (Int 3) (FetchRejects TypeError)],
     with_cache constructor "a" VUndefined).
Proof.
  assert (H : Forall (fun c => c_sentence c = "a")
                [mkCall "a" (Int 3) (FetchRejects TypeError)])
    by (repeat constructor).
  split; [reflexivity|]. split; [reflexivity|]. split; [exact H|].
  apply (non_object_body_poisons_cache StringToNumber0 ArrayToNumber0
           constructor "a" (Int 0) (mkResponse 200 (JsonResolves (VArr [])))
           (VArr []) _ eq_refl eq_refl eq_refl eq_refl H).
Defined.

Lemma failure_before_body_keeps_cache_witness :
  fails_before_body (FetchResolves (mkResponse 500 (JsonResolves VNull)))
  = true /\
  snd (fst (getJishokei StringToNumber0 ArrayToNumber0 "b" (Int 0)
              (FetchResolves (mkResponse 500 (JsonResolves VNull)))
              cached_tabeta))
  = cached_tabeta.
Proof.
  split; [reflexivity|].
  apply (failure_before_body_keeps_cache StringToNumber0 ArrayToNumber0
           cached_tabeta "b" (Int 0)
           (FetchResolves (mkResponse 500 (JsonResolves VNull))) eq_refl).
Defined.

Lemma network_path_never_throws_witness :
  cache_miss constructor "a" = true /\
  exists x,
    fst (fst (getJishokei StringToNumber0 ArrayToNumber0 "a" (Int 0)
                (ok_body (VObj [("tokens", VArr [VNull]);
                                ("current", VNum (Int 7))]))
                constructor))
    = Return x.
Proof.
  split; [reflexivity|].
  apply (network_path_never_throws StringToNumber0 ArrayToNumber0 constructor
           "a" (Int 0)
           (ok_body (VObj [("tokens", VArr [VNull]); ("current", VNum (Int 7))]))
           eq_refl).
Defined.

Lemma contract_runs_never_throw_witness :
  Forall (fun c => well_behaved (fun _ => True) (c_net c))
    [mkCall "食べた" (Int 0) (ok_body (response_data [tabeta] (Some tabeta)));
     mkCall "食べた" (Int 9) (FetchRejects AbortError)] /\
  Forall (fun out : outcome => exists x, fst out = Return x)
    (fst (run StringToNumber0 ArrayToNumber0
            [mkCall "食べた" (Int 0)
               (ok_body (response_data [tabeta] (Some tabeta)));
             mkCall "食べた" (Int 9) (FetchRejects AbortError)]
            constructor)).
Proof.
  assert (Hcalls :
            Forall (fun c => well_behaved (fun _ => True) (c_net c))
              [mkCall "食べた" (Int 0)
                 (ok_body (response_data [tabeta] (Some tabeta)));
               mkCall "食べた" (Int 9) (FetchRejects AbortError)]).
  { constructor; [|constructor; [exact I|constructor]].
    intros _. exists [tabeta], (Some tabeta).
    split; [reflexivity|]. split; [repeat constructor|trivial]. }
  split; [exact Hcalls|].
  apply (contract_runs_never_throw StringToNumber0 ArrayToNumber0 _ Hcalls).
Defined.

Lemma cachedSentence_stays_set_witness :
  _cachedSentence cached_tabeta <> None /\
  _cachedSentence
    (snd (fst (getJishokei StringToNumber0 ArrayToNumber0 "b" (Int 0)
                 (ok_body VNull) cached_tabeta)))
  <> None.
Proof.
  assert (H : _cachedSentence cached_tabeta <> None) by discriminate.
  split; [exact H|].
  apply (cachedSentence_stays_set StringToNumber0 ArrayToNumber0 cached_tabeta
           "b" (Int 0) (ok_body VNull) H).
Defined.

(** * Concrete runs against the clock *)

Lemma timer_first_aborts_witness :
  cache_miss cached_tabeta "b" = true /\
  timer_fires (_timeout cached_tabeta) (tabeta_service 6000 (At 6001)) = true /\
  getJishokei_timed StringToNumber0 ArrayToNumber0 "b" (Int 0)
    (tabeta_service 6000 (At 6001)) cached_tabeta
  = SettlesAt (_timeout cached_tabeta) true (Return None) cached_tabeta
      (request_events cached_tabeta "b" (Int 0) ++ [EvLogErrorTimedOut]).
Proof.
  split; [reflexivity|]. split; [reflexivity|].
  apply (timer_first_aborts StringToNumber0 ArrayToNumber0 cached_tabeta "b"
           (Int 0) (tabeta_service 6000 (At 6001)) eq_refl eq_refl).
Defined.

Lemma response_first_returns_current_witness :
  cache_miss constructor "食べた" = true /\
  fetch_at (tabeta_service 10 (At 60000)) = At 10 /\
  10 < _timeout constructor /\
  ok (mkResponse 200 (JsonResolves (response_data [tabeta] (Some tabeta))))
  = true /\
  getJishokei_timed StringToNumber0 ArrayToNumber0 "食べた" (Int 0)
    (tabeta_service 10 (At 60000)) constructor
  = SettlesAt (Z.max 10 60000) false
      (Return (option_map token_result (Some tabeta)))
      (with_cache constructor "食べた" (tokens_value [tabeta]))
      (request_events constructor "食べた" (Int 0) ++ [EvClearTimeout]).
Proof.
  assert (Hlt : 10 < _timeout constructor) by (simpl; lia).
  split; [reflexivity|]. split; [reflexivity|]. split; [exact Hlt|].
  split; [reflexivity|].
  apply (response_first_returns_current StringToNumber0 ArrayToNumber0
           constructor "食べた" (Int 0) (tabeta_service 10 (At 60000))
           10 60000
           (mkResponse 200 (JsonResolves (response_data [tabeta] (Some tabeta))))
           [tabeta] (Some tabeta)
           eq_refl eq_refl Hlt eq_refl eq_refl eq_refl).
Defined.
